(** * neupy.network.constructor: the constructable network

    A shallow embedding of [neupy/network/constructor.py]: the
    normalisation of a layer connection ([clean_layers]), the creation of
    the symbolic input and output variables, the two forward passes of
    [init_variables], the generation of the training updates and the
    compiled procedures of [ConstructableNetwork].

    Python exceptions are an error type, the network object [self] is an
    explicit state threaded through a state-and-exception monad, Theano
    graphs are a datatype of expressions, and the collaborators defined
    outside this module (layers, data formatting, the base network class,
    the implementations of Theano operations) are the fields of the class
    [Collaborators]. *)

From stdpp Require Import gmap strings list.

Set Warnings "-register-all".
Open Scope Z_scope.

(** ** Exceptions and outcomes *)

Inductive Exception :=
| NetworkConnectionError   (* neupy.layers.connections *)
| ValueError
| TypeError
| AttributeError
| IndexError
| ExternalError (origin : string).  (* raised inside a collaborator *)

Inductive Outcome (A : Type) :=
| Return (a : A)
| Raise (e : Exception).
Arguments Return {A} a.
Arguments Raise {A} e.

#[global] Instance Exception_eq_dec : EqDecision Exception.
Proof. solve_decision. Defined.

#[global] Instance Outcome_ret : MRet Outcome := fun _ a => Return a.
#[global] Instance Outcome_bind : MBind Outcome := fun _ _ f m =>
  match m with
  | Return a => f a
  | Raise e => Raise e
  end.

(** A [for] loop whose body may raise: the first exception ends the loop. *)
Fixpoint for_each {A} (body : A -> Outcome unit) (xs : list A) : Outcome unit :=
  match xs with
  | [] => Return tt
  | x :: rest => body x ;; for_each body rest
  end.

(** ** Theano: variable types, shared variables, graphs *)

(** The constructors [T.matrix], [T.tensor3], [T.tensor4]; any other
    constructor an error function may name as its [expected_dtype]. *)
Inductive VariableType :=
| matrix
| tensor3
| tensor4
| other_type (constructor : string).

Definition ndim_of (ty : VariableType) : option Z :=
  match ty with
  | matrix => Some 2
  | tensor3 => Some 3
  | tensor4 => Some 4
  | other_type _ => None
  end.

(** A shared variable is identified by who created it and by its name:
    the network creates ['step'] and ['epoch'], the layers create their
    parameters, and a random stream, from which a stochastic layer draws,
    keeps the state of its generator in one. *)
Inductive SharedVariable :=
| NetworkShared (name : string)
| ParameterShared (name : string)
| RandomState (stream : string).

#[global] Instance SharedVariable_eq_dec : EqDecision SharedVariable.
Proof. solve_decision. Defined.

(** The classes of layer this module tells apart. *)
Inductive LayerClass :=
| DropoutLayer     (* isinstance(layer, Dropout) *)
| OutputLayer      (* isinstance(layer, Output) *)
| PlainLayer.      (* any other BaseLayer *)

#[global] Instance LayerClass_eq_dec : EqDecision LayerClass.
Proof. solve_decision. Defined.

Section Constructor.

(** Numeric arrays (numpy) are opaque. *)
Context {ndarray : Type}.

Inductive Value :=
| IntValue (n : Z)
| ArrayValue (a : ndarray).

(** A symbolic expression, or a concrete value where Python's duck typing
    lets the same method receive one. *)
Inductive Expr :=
| Const (v : Value)
| Symbol (ty : VariableType) (name : string)   (* variable_type(variable_name) *)
| Shared (s : SharedVariable)                   (* theano.shared(name=..., value=...) *)
| Apply (op : string) (args : list Expr)        (* a node built by a collaborator *)
| Random (stream : string) (op : string) (args : list Expr).
                                                (* a draw from a random stream *)

(** ** Layers *)

(** What this module reads from a layer.  [weight_ndim] and [parameters]
    are read only after [init_layers] has run, so the record describes the
    layer as it is once [initialize()] has returned. *)
Record Layer := {
  layer_class : LayerClass;
  weight_ndim : Z;                          (* layer.weight.ndim *)
  parameters : list SharedVariable;         (* layer.parameters *)
  output : Expr -> Expr;                    (* layer.output(value) *)
}.

Definition is_Dropout (l : Layer) : bool :=
  bool_decide (layer_class l = DropoutLayer).

Definition has_no_parameter (l : Layer) : bool :=
  bool_decide (parameters l = []).

(** Every layer of [ls] applied in turn to [e], each through its [output]:
    a forward pass in which all layers are treated alike. *)
Definition uniform_pass (ls : list Layer) (e : Expr) : Expr :=
  foldl (fun e l => output l e) e ls.

Definition without_Dropout (ls : list Layer) : list Layer :=
  List.filter (fun l => negb (is_Dropout l)) ls.

(** ** Connections *)

(** A chainable object: a layer, or [LayerConnection(left, right)]. *)
Inductive Chain :=
| ChainLayer (l : Layer)
| ChainLink (lhs rhs : Chain).

(** The values the [connection] argument and the variable [connection] of
    [clean_layers] range over. *)
Inductive PyObject :=
| PyInt (n : Z)
| PyChain (c : Chain)
| PyList (items : list PyObject)
| PyTuple (items : list PyObject).

(** ** Error functions and compiled functions *)

(** An error function: a callable on two expressions, which may carry an
    [expected_dtype] attribute. *)
Record ErrorFunction := {
  error_call : Expr -> Expr -> Expr;
  expected_dtype : option VariableType;
}.

(** An update: the shared variable and the expression of its new value. *)
Definition UpdateRule : Type := SharedVariable * Expr.

(** [theano.function(inputs=..., outputs=..., updates=...)]. *)
Record Function := {
  inputs : list Expr;
  outputs : Expr;
  updates : list UpdateRule;
}.

(** The values held by the shared variables. *)
Definition Store : Type := SharedVariable -> Value.

(** ** The network object *)

(** The attributes set by the base classes ([BaseNetwork],
    [SupervisedLearning]) that this module reads. *)
Record BaseNetwork := {
  step : Value;
  last_epoch : Z;
  error : ErrorFunction;
}.

Record Self := {
  connection : option PyObject;
  layers : list Layer;
  input_layer : option Layer;
  hidden_layers : list Layer;
  output_layer : option Layer;
  train_layers : list Layer;
  base : option BaseNetwork;
  variables : gmap string Expr;        (* AttributeKeyDict *)
  methods : gmap string Function;      (* AttributeKeyDict *)
  storage : Store;                     (* the shared variables' values *)
}.

Definition set_connection (x : option PyObject) (self : Self) : Self :=
  {| connection := x; layers := layers self;
     input_layer := input_layer self; hidden_layers := hidden_layers self;
     output_layer := output_layer self; train_layers := train_layers self;
     base := base self; variables := variables self; methods := methods self;
     storage := storage self |}.

Definition set_layers (x : list Layer) (self : Self) : Self :=
  {| connection := connection self; layers := x;
     input_layer := input_layer self; hidden_layers := hidden_layers self;
     output_layer := output_layer self; train_layers := train_layers self;
     base := base self; variables := variables self; methods := methods self;
     storage := storage self |}.

Definition set_input_layer (x : option Layer) (self : Self) : Self :=
  {| connection := connection self; layers := layers self;
     input_layer := x; hidden_layers := hidden_layers self;
     output_layer := output_layer self; train_layers := train_layers self;
     base := base self; variables := variables self; methods := methods self;
     storage := storage self |}.

Definition set_hidden_layers (x : list Layer) (self : Self) : Self :=
  {| connection := connection self; layers := layers self;
     input_layer := input_layer self; hidden_layers := x;
     output_layer := output_layer self; train_layers := train_layers self;
     base := base self; variables := variables self; methods := methods self;
     storage := storage self |}.

Definition set_output_layer (x : option Layer) (self : Self) : Self :=
  {| connection := connection self; layers := layers self;
     input_layer := input_layer self; hidden_layers := hidden_layers self;
     output_layer := x; train_layers := train_layers self;
     base := base self; variables := variables self; methods := methods self;
     storage := storage self |}.

Definition set_train_layers (x : list Layer) (self : Self) : Self :=
  {| connection := connection self; layers := layers self;
     input_layer := input_layer self; hidden_layers := hidden_layers self;
     output_layer := output_layer self; train_layers := x;
     base := base self; variables := variables self; methods := methods self;
     storage := storage self |}.

Definition set_base (b : BaseNetwork) (self : Self) : Self :=
  {| connection := connection self; layers := layers self;
     input_layer := input_layer self; hidden_layers := hidden_layers self;
     output_layer := output_layer self; train_layers := train_layers self;
     base := Some b; variables := variables self; methods := methods self;
     storage := storage self |}.

Definition set_variables (vs : gmap string Expr) (self : Self) : Self :=
  {| connection := connection self; layers := layers self;
     input_layer := input_layer self; hidden_layers := hidden_layers self;
     output_layer := output_layer self; train_layers := train_layers self;
     base := base self; variables := vs; methods := methods self;
     storage := storage self |}.

Definition set_methods (ms : gmap string Function) (self : Self) : Self :=
  {| connection := connection self; layers := layers self;
     input_layer := input_layer self; hidden_layers := hidden_layers self;
     output_layer := output_layer self; train_layers := train_layers self;
     base := base self; variables := variables self; methods := ms;
     storage := storage self |}.

Definition set_storage (st : Store) (self : Self) : Self :=
  {| connection := connection self; layers := layers self;
     input_layer := input_layer self; hidden_layers := hidden_layers self;
     output_layer := output_layer self; train_layers := train_layers self;
     base := base self; variables := variables self; methods := methods self;
     storage := st |}.

(** A method of the network: it may change [self] and may raise; the state
    at the point of the exception is kept. *)
Definition M (A : Type) : Type := Self -> Outcome A * Self.

#[global] Instance M_ret : MRet M := fun _ a self => (Return a, self).
#[global] Instance M_bind : MBind M := fun _ _ f m self =>
  match m self with
  | (Return a, self') => f a self'
  | (Raise e, self') => (Raise e, self')
  end.

Definition get : M Self := fun self => (Return self, self).
Definition modify (f : Self -> Self) : M unit := fun self => (Return tt, f self).
Definition lift {A} (o : Outcome A) : M A := fun self => (o, self).
Definition raise {A} (e : Exception) : M A := lift (Raise e).

(** Reading an attribute or a key that has not been set. *)
Definition attribute {A} (o : option A) : M A :=
  match o with
  | Some a => mret a
  | None => raise AttributeError
  end.

(** The object before [__init__] has run; [store] holds the values of the
    shared variables that exist already (the layers' parameters). *)
Definition new_object (store : Store) : Self :=
  {| connection := None; layers := []; input_layer := None;
     hidden_layers := []; output_layer := None; train_layers := [];
     base := None; variables := ∅; methods := ∅; storage := store |}.

(** A Python method called with positional arguments: the call raises
    [TypeError] unless it passes as many arguments as the definition has
    parameters after [self]. *)
Inductive Argument :=
| LayerArgument (layer : Layer)
| ParameterArgument (parameter : SharedVariable).

Record Method := {
  positional : list string;
  body : Self -> list Argument -> Outcome (list UpdateRule);
}.

(** ** Collaborators

    What is defined outside this module: [generate_layers] of
    neupy.layers.utils; the [output_layer] attribute of a bare layer
    object, if [BaseLayer] has one; the links that [LayerConnection]
    refuses, and the exception it then raises; the implementations of the
    graph operations, where a draw from a random stream receives the state
    of the stream as its first argument, and the step of a generator from
    one state to the next; the base classes of the network; [initialize]
    of the layers; [asfloat], [format_data] and
    [does_layer_accept_1d_feature] of neupy.utils. *)
Class Collaborators := {
  generate_layers : list Z -> Outcome PyObject;
  layer_output_layer : Layer -> Outcome PyObject;
  link_refused : Chain -> Chain -> option Exception;
  op_impl : string -> list Value -> Outcome Value;
  next_random_state : Value -> Value;
  Options : Type;                       (* the remaining constructor arguments *)
  BaseNetwork_init : Options -> Outcome BaseNetwork;
  BaseNetwork_on_epoch_start_update : Z -> M unit;
  BaseNetwork_train : Value -> Value -> option Value -> option Value -> M unit;
  initialize : Layer -> Outcome unit;   (* layer.initialize() *)
  asfloat : Value -> Value;
  format_data : Value -> option bool -> Value;   (* second argument: is_feature1d, if given *)
  does_layer_accept_1d_feature : Layer -> bool;
}.

Context {collaborators : Collaborators}.

(** ** [clean_layers] *)

Definition isinstance_BaseLayer (o : PyObject) : bool :=
  match o with
  | PyChain (ChainLayer _) => true
  | _ => false
  end.

Definition isinstance_LayerConnection (o : PyObject) : bool :=
  match o with
  | PyChain (ChainLink _ _) => true
  | _ => false
  end.

Definition isinstance_Output (o : PyObject) : bool :=
  match o with
  | PyChain (ChainLayer l) => bool_decide (layer_class l = OutputLayer)
  | _ => false
  end.

Definition is_int (o : PyObject) : bool :=
  match o with
  | PyInt _ => true
  | _ => false
  end.

Definition int_of (o : PyObject) : Z :=
  match o with
  | PyInt n => n
  | _ => 0
  end.

(** Modelled from the spec: [is_list_of_integers] of neupy.utils is
    missing; the spec speaks of "a sequence of integers", which is a list
    or a tuple all of whose elements are integers. *)
Definition is_list_of_integers (connection : PyObject) : bool :=
  match connection with
  | PyList items | PyTuple items => forallb is_int items
  | _ => false
  end.

(** Modelled from the spec: the class [LayerConnection] of
    neupy.layers.connections is missing.  The spec defines the link between
    layers and already linked chains ("linked pairwise in order"); the
    class may refuse a link (an [Output] layer on the left, a layer that is
    linked already), which is the collaborators' decision.  The spec says
    nothing of other operands, for which the constructor is taken to
    fail. *)
Definition LayerConnection (lhs rhs : PyObject) : Outcome PyObject :=
  match lhs, rhs with
  | PyChain l, PyChain r =>
      match link_refused l r with
      | Some e => Raise e
      | None => Return (PyChain (ChainLink l r))
      end
  | _, _ => Raise (ExternalError "LayerConnection")
  end.

(** Modelled from the spec: iterating a chain "yields the layers in the
    exact original order". *)
Fixpoint chain_layers (c : Chain) : list Layer :=
  match c with
  | ChainLayer l => [l]
  | ChainLink lhs rhs => chain_layers lhs ++ chain_layers rhs
  end.

(** Modelled from the spec: in a link "the last element becomes the
    pipeline terminus". *)
Fixpoint terminus (c : Chain) : Layer :=
  match c with
  | ChainLayer l => l
  | ChainLink _ rhs => terminus rhs
  end.

(** The chain that links the layers [ls] and then [final], each to the
    chain of those after it. *)
Definition chain_of (ls : list Layer) (final : Layer) : Chain :=
  foldr (fun l c => ChainLink (ChainLayer l) c) (ChainLayer final) ls.

Definition layer_object (l : Layer) : PyObject := PyChain (ChainLayer l).

(** [connection.output_layer]: a list, a tuple and an integer have no such
    attribute. *)
Definition get_output_layer (connection : PyObject) : Outcome PyObject :=
  match connection with
  | PyChain (ChainLink _ rhs) => Return (PyChain (ChainLayer (terminus rhs)))
  | PyChain (ChainLayer l) => layer_output_layer l
  | _ => Raise AttributeError
  end.

(** The loop [for layer in reversed(connection)] of [clean_layers], on the
    list already reversed. *)
Fixpoint link_reversed (rev_layers : list PyObject) (chain_connection : PyObject)
  : Outcome PyObject :=
  match rev_layers with
  | [] => Return chain_connection
  | layer :: rest =>
      chain_connection' ← LayerConnection layer chain_connection;
      link_reversed rest chain_connection'
  end.

(** Lines 37-52 of [clean_layers]: every accepted format is brought to one
    object. *)
Definition link_layers (connection : PyObject) : Outcome PyObject :=
  connection ← (if is_list_of_integers connection
                then match connection with
                     | PyList items | PyTuple items =>
                         generate_layers (int_of <$> items)
                     | _ => Return connection
                     end
                else Return connection);
  let connection := match connection with
                    | PyTuple items => PyList items
                    | _ => connection
                    end in
  match connection with
  | PyList [] => Raise IndexError                       (* connection[0] *)
  | PyList ((first :: _) as items) =>
      if isinstance_BaseLayer first then
        match reverse items with
        | chain_connection :: rev_rest =>                 (* connection.pop() *)
            link_reversed rev_rest chain_connection
        | [] => Raise IndexError
        end
      else Return connection                              (* elif ...: pass *)
  | _ => Return connection
  end.

(** Lines 54-58 of [clean_layers]. *)
Definition check_output_layer (connection : PyObject) : Outcome PyObject :=
  output_layer ← get_output_layer connection;
  if isinstance_Output output_layer then Return connection
  else Raise NetworkConnectionError.

Definition clean_layers (connection : PyObject) : Outcome PyObject :=
  link_layers connection ≫= check_output_layer.

(** ** Input and output variables *)

Definition dim_to_variable_type (ndim : Z) : option VariableType :=
  if decide (ndim = 2) then Some matrix
  else if decide (ndim = 3) then Some tensor3
  else if decide (ndim = 4) then Some tensor4
  else None.

Definition create_input_variable (input_layer : Layer) (variable_name : string)
  : Outcome Expr :=
  let ndim := weight_ndim input_layer in
  match dim_to_variable_type ndim with
  | None => Raise ValueError
  | Some variable_type => Return (Symbol variable_type variable_name)
  end.

Definition create_output_variable (error_function : ErrorFunction)
    (variable_name : string) : Expr :=
  let network_output_dtype :=
    match expected_dtype error_function with
    | Some dtype => dtype
    | None => matrix
    end in
  Symbol network_output_dtype variable_name.

(** ** Calling a compiled function *)

Definition theano_function (inputs : list Expr) (outputs : Expr)
    (updates : list UpdateRule) : Function :=
  {| inputs := inputs; outputs := outputs; updates := updates |}.

Definition set_value (s : SharedVariable) (v : Value) (store : Store) : Store :=
  fun s' => if decide (s' = s) then v else store s'.

Fixpoint lookup_input (env : list (string * Value)) (name : string) : Outcome Value :=
  match env with
  | [] => Raise (ExternalError "MissingInputError")
  | (n, v) :: rest => if decide (n = name) then Return v else lookup_input rest name
  end.

Fixpoint eval (store : Store) (env : list (string * Value)) (e : Expr)
  : Outcome Value :=
  match e with
  | Const v => Return v
  | Symbol _ name => lookup_input env name
  | Shared s => Return (store s)
  | Apply op args =>
      (fix eval_args (es : list Expr) : Outcome (list Value) :=
         match es with
         | [] => Return []
         | e :: es' =>
             v ← eval store env e;
             vs ← eval_args es';
             Return (v :: vs)
         end) args ≫= op_impl op
  | Random stream op args =>
      (fix eval_args (es : list Expr) : Outcome (list Value) :=
         match es with
         | [] => Return []
         | e :: es' =>
             v ← eval store env e;
             vs ← eval_args es';
             Return (v :: vs)
         end) args ≫= fun vs => op_impl op (store (RandomState stream) :: vs)
  end.

(** The random streams from which an expression draws. *)
Fixpoint random_streams (e : Expr) : list string :=
  match e with
  | Const _ | Symbol _ _ | Shared _ => []
  | Apply _ args =>
      (fix of_args (es : list Expr) : list string :=
         match es with
         | [] => []
         | e :: es' => random_streams e ++ of_args es'
         end) args
  | Random stream _ args =>
      stream ::
      (fix of_args (es : list Expr) : list string :=
         match es with
         | [] => []
         | e :: es' => random_streams e ++ of_args es'
         end) args
  end.

Fixpoint bind_inputs (inputs : list Expr) (args : list Value)
  : Outcome (list (string * Value)) :=
  match inputs, args with
  | [], [] => Return []
  | Symbol _ name :: inputs', v :: args' =>
      env ← bind_inputs inputs' args';
      Return ((name, v) :: env)
  | _, _ => Raise TypeError
  end.

Fixpoint eval_updates (store : Store) (env : list (string * Value))
    (rules : list UpdateRule) : Outcome (list (SharedVariable * Value)) :=
  match rules with
  | [] => Return []
  | (s, e) :: rest =>
      v ← eval store env e;
      vs ← eval_updates store env rest;
      Return ((s, v) :: vs)
  end.

Definition write_all (news : list (SharedVariable * Value)) (store : Store) : Store :=
  foldl (fun st sv => set_value sv.1 sv.2 st) store news.

(** A layer that is not stochastic: its output draws from a random stream
    only if its input does. *)
Definition draws_nothing (l : Layer) : Prop :=
  forall e, random_streams e = [] -> random_streams (output l e) = [].

(** The updates that Theano adds by default: every random stream from
    which the graph of the function draws, in its outputs or in its
    updates, moves to its next state. *)
Definition default_updates (f : Function) (store : Store)
  : list (SharedVariable * Value) :=
  (fun stream => (RandomState stream, next_random_state (store (RandomState stream))))
  <$> (random_streams (outputs f)
       ++ flat_map (fun u => random_streams u.2) (updates f)).

(** Calling a compiled function: the outputs and the new values are all
    computed from the store as it is before the call; then the random
    streams are moved on and the new values of the updates are written. *)
Definition call_function (f : Function) (args : list Value) (store : Store)
  : Outcome Value * Store :=
  match bind_inputs (inputs f) args with
  | Raise e => (Raise e, store)
  | Return env =>
      match eval store env (outputs f), eval_updates store env (updates f) with
      | Return v, Return news =>
          (Return v, write_all news (write_all (default_updates f store) store))
      | Raise e, _ => (Raise e, store)
      | _, Raise e => (Raise e, store)
      end
  end.

(** ** The update hook *)

Definition call_method (m : Method) (self : Self) (args : list Argument)
  : Outcome (list UpdateRule) :=
  if decide (length args = length (positional m)) then body m self args
  else Raise TypeError.

(** [def init_param_updates(self, parameter): return []] *)
Definition init_param_updates : Method :=
  {| positional := ["parameter"]; body := fun _ _ => Return [] |}.

(** ** [ConstructableNetwork] *)

Section Methods.

(** The method [init_param_updates] that attribute lookup finds on the
    object: the one above, or the override of a subclass. *)
Variable hook : Method.

(** The loop of [init_layer_updates], from the list [updates] built so far. *)
Fixpoint extend_param_updates (self : Self) (layer : Layer)
    (params : list SharedVariable) (updates : list UpdateRule)
  : Outcome (list UpdateRule) :=
  match params with
  | [] => Return updates
  | parameter :: rest =>
      new ← call_method hook self [LayerArgument layer; ParameterArgument parameter];
      extend_param_updates self layer rest (updates ++ new)
  end.

Definition init_layer_updates (self : Self) (layer : Layer)
  : Outcome (list UpdateRule) :=
  extend_param_updates self layer (parameters layer) [].

(** The loop of [init_train_updates]. *)
Fixpoint extend_layer_updates (self : Self) (ls : list Layer)
    (updates : list UpdateRule) : Outcome (list UpdateRule) :=
  match ls with
  | [] => Return updates
  | layer :: rest =>
      new ← init_layer_updates self layer;
      extend_layer_updates self rest (updates ++ new)
  end.

Definition init_train_updates (self : Self) : Outcome (list UpdateRule) :=
  extend_layer_updates self (train_layers self) [].

Definition init_layers : M unit :=
  self ← get;
  lift (for_each initialize (train_layers self)).

(** The loop of [init_variables]: the pair is
    [(layer_input, train_layer_input)]. *)
Fixpoint forward_passes (ls : list Layer) (layer_input train_layer_input : Expr)
  : Expr * Expr :=
  match ls with
  | [] => (layer_input, train_layer_input)
  | layer :: rest =>
      let layer_input :=
        if is_Dropout layer then layer_input else output layer layer_input in
      let train_layer_input := output layer train_layer_input in
      forward_passes rest layer_input train_layer_input
  end.

(** [theano.shared(name=..., value=...)] *)
Definition theano_shared (name : string) (value : Value) : M Expr :=
  modify (fun self =>
    set_storage (set_value (NetworkShared name) value (storage self)) self);;
  mret (Shared (NetworkShared name)).

Definition init_variables : M unit :=
  self ← get;
  network_input ← attribute (variables self !! "network_input");
  network_output ← attribute (variables self !! "network_output");
  let '(layer_input, train_layer_input) :=
    forward_passes (train_layers self) network_input network_input in
  let prediction := train_layer_input in
  b ← attribute (base self);
  step_variable ← theano_shared "step" (asfloat (step b));
  epoch_variable ← theano_shared "epoch" (IntValue (last_epoch b));
  let error_func := error_call (error b) network_output prediction in
  modify (fun self => set_variables
    (<["step" := step_variable]>
     (<["epoch" := epoch_variable]>
      (<["prediction_func" := layer_input]>
       (<["train_prediction_func" := prediction]>
        (<["error_func" := error_func]> (variables self)))))) self).

Definition set_method (name : string) (f : Function) : M unit :=
  modify (fun self => set_methods (<[name := f]> (methods self)) self).

Definition init_methods : M unit :=
  self ← get;
  network_input ← attribute (variables self !! "network_input");
  network_output ← attribute (variables self !! "network_output");
  prediction_func ← attribute (variables self !! "prediction_func");
  set_method "predict_raw" (theano_function [network_input] prediction_func []);;
  error_func ← attribute (variables self !! "error_func");
  self' ← get;
  train_updates ← lift (init_train_updates self');
  set_method "train_epoch"
    (theano_function [network_input; network_output] error_func train_updates);;
  set_method "prediction_error"
    (theano_function [network_input; network_output] error_func []).

(** [list(self.connection)]; [clean_layers] returns nothing but a chain. *)
Definition list_layers (connection : PyObject) : Outcome (list Layer) :=
  match connection with
  | PyChain c => Return (chain_layers c)
  | _ => Raise TypeError
  end.

Definition item {A} (o : option A) : M A :=
  match o with
  | Some a => mret a
  | None => raise IndexError
  end.

Definition __init__ (connection : PyObject) (options : Options) : M unit :=
  connection ← lift (clean_layers connection);
  modify (set_connection (Some connection));;
  ls ← lift (list_layers connection);
  modify (set_layers ls);;
  first ← item (head ls);
  modify (set_input_layer (Some first));;
  modify (set_hidden_layers (removelast (tail ls)));;
  final ← item (last ls);
  modify (set_output_layer (Some final));;
  modify (set_train_layers (removelast ls));;
  init_layers;;
  b ← lift (BaseNetwork_init options);
  modify (set_base b);;
  network_input ← lift (create_input_variable first "x");
  let network_output := create_output_variable (error b) "y" in
  modify (set_variables
    (<["network_input" := network_input]>
     (<["network_output" := network_output]> ∅)));;
  modify (set_methods ∅);;
  init_variables;;
  init_methods.

(** Calling the compiled function stored under [name] in [self.methods]. *)
Definition run_function (f : Function) (args : list Value) : M Value :=
  fun self =>
    let '(result, store) := call_function f args (storage self) in
    (result, set_storage store self).

Definition call_compiled (name : string) (args : list Value) : M Value :=
  self ← get;
  f ← attribute (methods self !! name);
  run_function f args.

Definition prediction_error (input_data target_data : Value) : M Value :=
  let input_data := format_data input_data None in
  let target_data := format_data target_data None in
  call_compiled "prediction_error" [input_data; target_data].

Definition predict_raw (input_data : Value) : M Value :=
  self ← get;
  first ← attribute (input_layer self);
  let is_feature1d := does_layer_accept_1d_feature first in
  let input_data := format_data input_data (Some is_feature1d) in
  call_compiled "predict_raw" [input_data].

Definition predict (input_data : Value) : M Expr :=
  raw_prediction ← predict_raw input_data;
  self ← get;
  final ← attribute (output_layer self);
  mret (output final (Const raw_prediction)).

(** [variable.set_value(value)] *)
Definition shared_set_value (variable : Expr) (value : Value) : M unit :=
  match variable with
  | Shared s => modify (fun self => set_storage (set_value s value (storage self)) self)
  | _ => raise AttributeError
  end.

Definition on_epoch_start_update (epoch : Z) : M unit :=
  BaseNetwork_on_epoch_start_update epoch;;
  self ← get;
  epoch_variable ← attribute (variables self !! "epoch");
  shared_set_value epoch_variable (IntValue epoch).

Definition train (input_train target_train : Value)
    (input_test target_test : option Value) : M unit :=
  self ← get;
  first ← attribute (input_layer self);
  final ← attribute (output_layer self);
  let is_input_feature1d := does_layer_accept_1d_feature first in
  let is_target_feature1d := does_layer_accept_1d_feature final in
  let input_train := format_data input_train (Some is_input_feature1d) in
  let target_train := format_data target_train (Some is_target_feature1d) in
  let input_test :=
    (fun v => format_data v (Some is_input_feature1d)) <$> input_test in
  let target_test :=
    (fun v => format_data v (Some is_target_feature1d)) <$> target_test in
  BaseNetwork_train input_train target_train input_test target_test.

Definition train_epoch (input_train target_train : Value) : M Value :=
  call_compiled "train_epoch" [input_train; target_train].

End Methods.

End Constructor.

(** ** A small network

    Arrays are integers, and the collaborators do the least that lets a
    network be built and run: three operations on integers and a mask
    that lets its input through when the state of its random stream is
    odd, a generator that counts, a [LayerConnection] that refuses a chain
    ending in an [Output] layer on its left, a base class that keeps
    [step] and [last_epoch], a formatter that adds one. *)
Module Example.

Definition dense (name : string) : Layer (ndarray := Z) :=
  {| layer_class := PlainLayer;
     weight_ndim := 2;
     parameters := [ParameterShared (name +:+ ".weight");
                    ParameterShared (name +:+ ".bias")];
     output := fun e =>
       Apply "add"
         [Apply "mul" [e; Shared (ParameterShared (name +:+ ".weight"))];
          Shared (ParameterShared (name +:+ ".bias"))] |}.

Definition dropout : Layer (ndarray := Z) :=
  {| layer_class := DropoutLayer; weight_ndim := 2; parameters := [];
     output := fun e => Random "dropout" "mask" [e] |}.

(** A layer with a weight that it does not offer for training. *)
Definition frozen : Layer (ndarray := Z) :=
  {| layer_class := PlainLayer; weight_ndim := 2; parameters := [];
     output := fun e => Apply "mul" [e; Shared (ParameterShared "frozen.weight")] |}.

(** A layer whose output does not depend on its input. *)
Definition constant : Layer (ndarray := Z) :=
  {| layer_class := PlainLayer; weight_ndim := 2; parameters := [];
     output := fun _ => Const (ArrayValue 0) |}.

Definition out : Layer (ndarray := Z) :=
  {| layer_class := OutputLayer; weight_ndim := 2; parameters := [];
     output := fun e => e |}.

Definition volume : Layer (ndarray := Z) :=
  {| layer_class := PlainLayer; weight_ndim := 5; parameters := [];
     output := fun e => e |}.

Definition as_int (v : Value (ndarray := Z)) : Z :=
  match v with
  | IntValue n => n
  | ArrayValue a => a
  end.

Definition operations (op : string) (args : list (Value (ndarray := Z)))
  : Outcome (Value (ndarray := Z)) :=
  match args with
  | [a; b] =>
      if decide (op = "add") then Return (ArrayValue (as_int a + as_int b))
      else if decide (op = "mul") then Return (ArrayValue (as_int a * as_int b))
      else if decide (op = "sub") then Return (ArrayValue (as_int a - as_int b))
      else if decide (op = "mask")
           then Return (ArrayValue (as_int b * (as_int a `mod` 2)))
      else Raise (ExternalError op)
  | _ => Raise (ExternalError op)
  end.

Definition refuse_Output_on_the_left (lhs rhs : Chain (ndarray := Z))
  : option Exception :=
  if bool_decide (layer_class (terminus lhs) = OutputLayer)
  then Some NetworkConnectionError else None.

Definition difference : ErrorFunction (ndarray := Z) :=
  {| error_call := fun expected predicted => Apply "sub" [expected; predicted];
     expected_dtype := None |}.

(** The hook of the base class keeps the epoch in [last_epoch]. *)
Definition keep_last_epoch (epoch : Z) : M (ndarray := Z) unit :=
  modify (fun self =>
    match base self with
    | Some b =>
        set_base {| step := step b; last_epoch := epoch; error := error b |} self
    | None => self
    end).

(** The collaborators, given what the [output_layer] attribute of a bare
    layer does. *)
Definition collaborators_with
    (bare : Layer (ndarray := Z) -> Outcome (PyObject (ndarray := Z)))
  : Collaborators (ndarray := Z) :=
  {| generate_layers := fun _ => Raise (ExternalError "generate_layers");
     layer_output_layer := bare;
     link_refused := refuse_Output_on_the_left;
     op_impl := operations;
     next_random_state := fun v => ArrayValue (as_int v + 1);
     Options := Z;
     BaseNetwork_init := fun step_size =>
       Return {| step := ArrayValue step_size; last_epoch := 0; error := difference |};
     BaseNetwork_on_epoch_start_update := keep_last_epoch;
     BaseNetwork_train := fun _ _ _ _ => mret tt;
     initialize := fun _ => Return tt;
     asfloat := fun v => v;
     format_data := fun v _ => ArrayValue (as_int v + 1);
     does_layer_accept_1d_feature := fun _ => true |}.

(** A bare layer has no [output_layer] attribute. *)
Definition no_attribute : Collaborators (ndarray := Z) :=
  collaborators_with (fun _ => Raise AttributeError).

(** A subclass whose hook moves a parameter to the loss. *)
Definition to_loss : Method (ndarray := Z) :=
  {| positional := ["layer"; "parameter"];
     body := fun self args =>
       match args, variables self !! "error_func" with
       | [LayerArgument _; ParameterArgument p], Some loss => Return [(p, loss)]
       | _, _ => Raise AttributeError
       end |}.

Definition zeros : Store (ndarray := Z) := fun _ => ArrayValue 0.
Definition ones : Store (ndarray := Z) := fun _ => ArrayValue 1.

Definition x : Expr (ndarray := Z) := Symbol matrix "x".
Definition y : Expr (ndarray := Z) := Symbol matrix "y".

Definition base_network : BaseNetwork (ndarray := Z) :=
  {| step := ArrayValue 1; last_epoch := 0; error := difference |}.

(** An object on which [init_variables] can run: the trainable layers, the
    attributes of the base class and the two variables are set. *)
Definition prepared (ls : list (Layer (ndarray := Z))) : Self (ndarray := Z) :=
  set_variables (<["network_input" := x]> (<["network_output" := y]> ∅))
    (set_base base_network (set_train_layers ls (new_object zeros))).

Definition pipeline : PyObject (ndarray := Z) :=
  PyList [layer_object (dense "h"); layer_object dropout; layer_object out].

(** The network built from [pipeline] with step 1 by the subclass. *)
Definition built : Self (ndarray := Z) :=
  (__init__ (collaborators := no_attribute) to_loss pipeline 1 (new_object zeros)).2.

(** The same network after the assignment [network.step = 5]. *)
Definition restepped : Self (ndarray := Z) :=
  set_base {| step := ArrayValue 5; last_epoch := 0; error := difference |} built.

(** The network built from [pipeline] where every shared variable starts
    at 1. *)
Definition live : Self (ndarray := Z) :=
  (__init__ (collaborators := no_attribute) to_loss pipeline 1 (new_object ones)).2.

(** A pipeline without parameters, and the network built from it with the
    default hook. *)
Definition idle_pipeline : PyObject (ndarray := Z) :=
  PyList [layer_object frozen; layer_object dropout; layer_object out].

Definition idle : Self (ndarray := Z) :=
  (__init__ (collaborators := no_attribute) init_param_updates idle_pipeline 1
     (new_object zeros)).2.

(** Collaborators that refuse to initialise a layer with a weight of five
    dimensions, and a step that is not positive. *)
Definition strict : Collaborators (ndarray := Z) :=
  {| generate_layers := generate_layers (Collaborators := no_attribute);
     layer_output_layer := layer_output_layer (Collaborators := no_attribute);
     link_refused := refuse_Output_on_the_left;
     op_impl := operations;
     next_random_state := fun v => ArrayValue (as_int v + 1);
     Options := Z;
     BaseNetwork_init := fun step_size =>
       if decide (step_size <= 0) then Raise ValueError
       else Return {| step := ArrayValue step_size; last_epoch := 0;
                      error := difference |};
     BaseNetwork_on_epoch_start_update := keep_last_epoch;
     BaseNetwork_train := fun _ _ _ _ => mret tt;
     initialize := fun l =>
       if decide (weight_ndim l = 5) then Raise (ExternalError "initialize")
       else Return tt;
     asfloat := fun v => v;
     format_data := fun v _ => ArrayValue (as_int v + 1);
     does_layer_accept_1d_feature := fun _ => true |}.

(** A hook that has no rule for the weight of the layer [g]. *)
Definition picky : Method (ndarray := Z) :=
  {| positional := ["layer"; "parameter"];
     body := fun _ args =>
       match args with
       | [LayerArgument _; ParameterArgument p] =>
           if decide (p = ParameterShared "g.weight") then Raise ValueError
           else Return [(p, Shared p)]
       | _ => Raise TypeError
       end |}.

End Example.

(** * Properties *)

Section Properties.

Context {ndarray : Type} {collaborators : Collaborators (ndarray := ndarray)}.

Implicit Types (self : Self (ndarray := ndarray)) (layer : Layer (ndarray := ndarray)).
Implicit Types (hook : Method (ndarray := ndarray)).

(** ** The monad *)

Lemma bind_run {A B} (m : M A) (f : A -> M B) self :
  (m ≫= f) self =
  match m self with
  | (Return a, self') => f a self'
  | (Raise e, self') => (Raise e, self')
  end.
Proof. reflexivity. Qed.

Lemma lift_run {A} (o : Outcome A) self : lift o self = (o, self).
Proof. reflexivity. Qed.

Lemma modify_run (f : Self -> Self) self : modify f self = (Return tt, f self).
Proof. reflexivity. Qed.

Lemma get_run self : get self = (Return self, self).
Proof. reflexivity. Qed.

Lemma ret_run {A} (a : A) self : mret (M := M) a self = (Return a, self).
Proof. reflexivity. Qed.

Lemma attribute_Some {A} (o : option A) (a : A) self :
  o = Some a -> attribute o self = (Return a, self).
Proof. by intros ->. Qed.

Lemma set_storage_same self : set_storage (storage self) self = self.
Proof. by destruct self. Qed.

Ltac run :=
  repeat first
    [ rewrite bind_run
    | rewrite modify_run
    | rewrite get_run
    | rewrite lift_run
    | rewrite ret_run ].

Ltac run_in H :=
  repeat first
    [ rewrite bind_run in H
    | rewrite modify_run in H
    | rewrite get_run in H
    | rewrite lift_run in H
    | rewrite ret_run in H ].

(** A key of a dictionary built by successive insertions. *)
Ltac lookup_key :=
  cbn [variables methods set_variables set_methods set_storage];
  repeat (rewrite lookup_insert_ne by discriminate);
  apply lookup_insert_eq.

(** ** The default hook *)

Lemma extend_param_updates_default self layer params acc :
  extend_param_updates init_param_updates self layer params acc =
  match params with
  | [] => Return acc
  | _ :: _ => Raise TypeError
  end.
Proof. by destruct params. Qed.

Lemma extend_layer_updates_default self ls acc :
  extend_layer_updates init_param_updates self ls acc =
  if forallb has_no_parameter ls then Return acc else Raise TypeError.
Proof.
  revert acc. induction ls as [|layer ls IH]; intros acc; [done|].
  cbn [extend_layer_updates forallb].
  unfold init_layer_updates. rewrite extend_param_updates_default.
  unfold has_no_parameter at 1.
  destruct (parameters layer) as [|p ps] eqn:Hp; cbn.
  - rewrite IH. by rewrite app_nil_r.
  - done.
Qed.

(** C1: through the per-layer update generation, the default hook returns
    the empty list only for a layer without parameters; for a layer with a
    parameter the call passes two arguments to a method that takes one and
    raises [TypeError], so that [init_train_updates] yields no list of
    updates as soon as a trainable layer has a parameter. *)
Theorem default_hook_updates self layer :
  init_layer_updates init_param_updates self layer =
    match parameters layer with
    | [] => Return []
    | _ :: _ => Raise TypeError
    end
  /\ init_train_updates init_param_updates self =
     if forallb has_no_parameter (train_layers self) then Return []
     else Raise TypeError.
Proof.
  split.
  - apply extend_param_updates_default.
  - apply extend_layer_updates_default.
Qed.

(** ** The constructor, step by step *)

Lemma init_variables_run self x y b :
  variables self !! "network_input" = Some x ->
  variables self !! "network_output" = Some y ->
  base self = Some b ->
  let passes := forward_passes (train_layers self) x x in
  init_variables self =
  (Return tt,
   set_variables
     (<["step" := Shared (NetworkShared "step")]>
      (<["epoch" := Shared (NetworkShared "epoch")]>
       (<["prediction_func" := passes.1]>
        (<["train_prediction_func" := passes.2]>
         (<["error_func" := error_call (error b) y passes.2]> (variables self))))))
     (set_storage
        (set_value (NetworkShared "epoch") (IntValue (last_epoch b))
           (set_value (NetworkShared "step") (asfloat (step b)) (storage self)))
        self)).
Proof.
  intros Hx Hy Hb passes. unfold init_variables. run.
  rewrite (attribute_Some _ _ _ Hx). run.
  rewrite (attribute_Some _ _ _ Hy).
  subst passes. destruct (forward_passes (train_layers self) x x) as [p q].
  run. rewrite (attribute_Some _ _ _ Hb). unfold theano_shared. run.
  reflexivity.
Qed.

Lemma init_methods_run hook self x y p loss :
  variables self !! "network_input" = Some x ->
  variables self !! "network_output" = Some y ->
  variables self !! "prediction_func" = Some p ->
  variables self !! "error_func" = Some loss ->
  let compiled := <["predict_raw" := theano_function [x] p []]> (methods self) in
  init_methods hook self =
  match init_train_updates hook (set_methods compiled self) with
  | Return train_updates =>
      (Return tt,
       set_methods
         (<["prediction_error" := theano_function [x; y] loss []]>
          (<["train_epoch" := theano_function [x; y] loss train_updates]> compiled))
         self)
  | Raise e => (Raise e, set_methods compiled self)
  end.
Proof.
  intros Hx Hy Hp Hl compiled. unfold init_methods, set_method. run.
  rewrite (attribute_Some _ _ _ Hx). run.
  rewrite (attribute_Some _ _ _ Hy). run.
  rewrite (attribute_Some _ _ _ Hp). run.
  rewrite (attribute_Some _ _ _ Hl). run.
  fold compiled.
  destruct (init_train_updates hook (set_methods compiled self)); reflexivity.
Qed.

(** The steps of [__init__] up to the creation of the input variable. *)
Lemma init_prefix hook connection options self0 ch first final b :
  clean_layers connection = Return (PyChain ch) ->
  head (chain_layers ch) = Some first ->
  last (chain_layers ch) = Some final ->
  for_each initialize (removelast (chain_layers ch)) = Return tt ->
  BaseNetwork_init options = Return b ->
  let prepared :=
    set_base b
      (set_train_layers (removelast (chain_layers ch))
         (set_output_layer (Some final)
            (set_hidden_layers (removelast (tail (chain_layers ch)))
               (set_input_layer (Some first)
                  (set_layers (chain_layers ch)
                     (set_connection (Some (PyChain ch)) self0)))))) in
  __init__ hook connection options self0 =
  match dim_to_variable_type (weight_ndim first) with
  | None => (Raise ValueError, prepared)
  | Some ty =>
      (init_variables ;; init_methods hook)
        (set_methods ∅
           (set_variables
              (<["network_input" := Symbol ty "x"]>
               (<["network_output" := create_output_variable (error b) "y"]> ∅))
              prepared))
  end.
Proof.
  intros Hclean Hfirst Hfinal Hinit Hbase prepared. unfold __init__. run.
  rewrite Hclean. run. cbn [list_layers]. run.
  rewrite Hfirst. cbn [item]. run.
  rewrite Hfinal. cbn [item]. run.
  unfold init_layers. run. cbn [train_layers set_train_layers].
  rewrite Hinit, Hbase. run.
  unfold create_input_variable.
  destruct (dim_to_variable_type (weight_ndim first)) as [ty|]; run; reflexivity.
Qed.

(** What a successful construction has done. *)
Lemma init_inv hook connection options self0 self :
  __init__ hook connection options self0 = (Return tt, self) ->
  exists ch first final b ty train_updates,
    let x := Symbol ty "x" in
    let y := create_output_variable (error b) "y" in
    let passes := forward_passes (removelast (chain_layers ch)) x x in
    let loss := error_call (error b) y passes.2 in
    let compiled := <["predict_raw" := theano_function [x] passes.1 []]> ∅ in
    clean_layers connection = Return (PyChain ch)
    /\ head (chain_layers ch) = Some first
    /\ last (chain_layers ch) = Some final
    /\ for_each initialize (removelast (chain_layers ch)) = Return tt
    /\ BaseNetwork_init options = Return b
    /\ dim_to_variable_type (weight_ndim first) = Some ty
    /\ init_train_updates hook (set_methods compiled self) = Return train_updates
    /\ layers self = chain_layers ch
    /\ input_layer self = Some first
    /\ output_layer self = Some final
    /\ train_layers self = removelast (chain_layers ch)
    /\ base self = Some b
    /\ variables self =
         <["step" := Shared (NetworkShared "step")]>
         (<["epoch" := Shared (NetworkShared "epoch")]>
          (<["prediction_func" := passes.1]>
           (<["train_prediction_func" := passes.2]>
            (<["error_func" := loss]>
             (<["network_input" := x]> (<["network_output" := y]> ∅))))))
    /\ methods self =
         <["prediction_error" := theano_function [x; y] loss []]>
         (<["train_epoch" := theano_function [x; y] loss train_updates]> compiled)
    /\ storage self =
         set_value (NetworkShared "epoch") (IntValue (last_epoch b))
           (set_value (NetworkShared "step") (asfloat (step b)) (storage self0)).
Proof.
  unfold __init__. intros H. run_in H.
  destruct (clean_layers connection) as [c|e] eqn:Hclean; [|discriminate].
  run_in H.
  destruct c as [n|ch|items|items]; cbn [list_layers] in H; try discriminate.
  run_in H.
  destruct (head (chain_layers ch)) as [first|] eqn:Hfirst; cbn [item] in H;
    [|discriminate].
  run_in H.
  destruct (last (chain_layers ch)) as [final|] eqn:Hfinal; cbn [item] in H;
    [|discriminate].
  run_in H. unfold init_layers in H. run_in H.
  cbn [train_layers set_train_layers] in H.
  destruct (for_each initialize (removelast (chain_layers ch))) as [[]|e] eqn:Hinit;
    [|discriminate].
  destruct (BaseNetwork_init options) as [b|e] eqn:Hbase; [|discriminate].
  run_in H. unfold create_input_variable in H.
  destruct (dim_to_variable_type (weight_ndim first)) as [ty|] eqn:Hty;
    [|discriminate].
  run_in H.
  match type of H with
  | context [init_variables ?s] => set (s1 := s) in H
  end.
  assert (Hx : variables s1 !! "network_input" = Some (Symbol ty "x"))
    by (subst s1; lookup_key).
  assert (Hy : variables s1 !! "network_output"
               = Some (create_output_variable (error b) "y"))
    by (subst s1; lookup_key).
  assert (Hb : base s1 = Some b) by reflexivity.
  pose proof (init_variables_run s1 _ _ _ Hx Hy Hb) as Hrun.
  cbv zeta in Hrun. rewrite Hrun in H. clear Hrun.
  match type of H with
  | context [init_methods hook ?s] => set (s2 := s) in H
  end.
  set (x := Symbol ty "x") in *.
  set (y := create_output_variable (error b) "y") in *.
  set (passes := forward_passes (train_layers s1) x x) in *.
  assert (Hx2 : variables s2 !! "network_input" = Some x)
    by (subst s2; cbn [variables set_variables]; subst s1; lookup_key).
  assert (Hy2 : variables s2 !! "network_output" = Some y)
    by (subst s2; cbn [variables set_variables]; subst s1; lookup_key).
  assert (Hp2 : variables s2 !! "prediction_func" = Some passes.1)
    by (subst s2; lookup_key).
  assert (Hl2 : variables s2 !! "error_func"
                = Some (error_call (error b) y passes.2))
    by (subst s2; lookup_key).
  pose proof (init_methods_run hook s2 _ _ _ _ Hx2 Hy2 Hp2 Hl2) as Hrun.
  cbv zeta in Hrun. rewrite Hrun in H. clear Hrun.
  match type of H with
  | match ?o with _ => _ end = _ => destruct o as [ups|e] eqn:Hups; [|discriminate]
  end.
  injection H as <-.
  exists ch, first, final, b, ty, ups.
  repeat split; try reflexivity; try assumption.
Qed.

(** ** The two forward passes *)

Lemma forward_passes_fold (ls : list Layer) (a b : Expr (ndarray := ndarray)) :
  forward_passes ls a b = (uniform_pass (without_Dropout ls) a, uniform_pass ls b).
Proof.
  revert a b. induction ls as [|layer ls IH]; intros a b; [done|].
  cbn [forward_passes]. rewrite IH. unfold without_Dropout. cbn [List.filter].
  by destruct (is_Dropout layer).
Qed.

Lemma without_Dropout_id (ls : list (Layer (ndarray := ndarray))) :
  Forall (fun l => is_Dropout l = false) ls -> without_Dropout ls = ls.
Proof.
  induction 1 as [|l ls Hl _ IH]; [done|].
  unfold without_Dropout in *. cbn [List.filter]. rewrite Hl. cbn. by rewrite IH.
Qed.

Lemma without_Dropout_app (l1 l2 : list (Layer (ndarray := ndarray))) :
  without_Dropout (l1 ++ l2) = without_Dropout l1 ++ without_Dropout l2.
Proof. apply List.filter_app. Qed.

Lemma uniform_pass_app (l1 l2 : list Layer) (e : Expr (ndarray := ndarray)) :
  uniform_pass (l1 ++ l2) e = uniform_pass l2 (uniform_pass l1 e).
Proof. apply foldl_app. Qed.

Lemma uniform_pass_inj (ls : list Layer) (e1 e2 : Expr (ndarray := ndarray)) :
  Forall (fun l => forall a b, output l a = output l b -> a = b) ls ->
  uniform_pass ls e1 = uniform_pass ls e2 -> e1 = e2.
Proof.
  intros Hinj. revert e1 e2.
  induction Hinj as [|l ls Hl _ IH]; intros e1 e2 H; [done|].
  apply Hl, IH, H.
Qed.

Lemma passes_diverge (pre post : list Layer) d (x : Expr (ndarray := ndarray)) :
  is_Dropout d = true ->
  Forall (fun l => is_Dropout l = false) (pre ++ post) ->
  Forall (fun l => forall a b, output l a = output l b -> a = b) post ->
  output d (uniform_pass pre x) <> uniform_pass pre x ->
  uniform_pass (without_Dropout (pre ++ d :: post)) x
  <> uniform_pass (pre ++ d :: post) x.
Proof.
  intros Hd Hnone Hinj Hne Heq. apply Hne.
  apply Forall_app in Hnone as [Hpre Hpost].
  rewrite without_Dropout_app in Heq.
  unfold without_Dropout at 2 in Heq. cbn [List.filter] in Heq.
  rewrite Hd in Heq. cbn [negb] in Heq.
  fold (without_Dropout post) in Heq.
  rewrite !without_Dropout_id in Heq by done.
  rewrite !uniform_pass_app in Heq.
  symmetry. by apply (uniform_pass_inj post).
Qed.

(** C2 (as amended): [init_variables] builds the inference expression by
    applying the output of every trainable layer that is not a Dropout
    instance, which it skips without calling it, and the training
    expression by applying the output of every trainable layer.  Without a
    Dropout layer the two expressions are built by the same applications
    and coincide.  With one Dropout layer whose output differs from its
    input at that place, and injective outputs for the layers after it,
    they differ. *)
Theorem passes_differ_at_Dropout self x y b :
  variables self !! "network_input" = Some x ->
  variables self !! "network_output" = Some y ->
  base self = Some b ->
  exists self',
    init_variables self = (Return tt, self')
    /\ variables self' !! "prediction_func"
       = Some (uniform_pass (without_Dropout (train_layers self)) x)
    /\ variables self' !! "train_prediction_func"
       = Some (uniform_pass (train_layers self) x)
    /\ (Forall (fun l => is_Dropout l = false) (train_layers self) ->
        variables self' !! "prediction_func"
        = variables self' !! "train_prediction_func")
    /\ (forall pre d post,
          train_layers self = pre ++ d :: post ->
          is_Dropout d = true ->
          Forall (fun l => is_Dropout l = false) (pre ++ post) ->
          Forall (fun l => forall a b, output l a = output l b -> a = b) post ->
          output d (uniform_pass pre x) <> uniform_pass pre x ->
          variables self' !! "prediction_func"
          <> variables self' !! "train_prediction_func").
Proof.
  intros Hx Hy Hb. eexists. split; [by apply init_variables_run|].
  rewrite forward_passes_fold. cbn [fst snd].
  assert (Hp : forall (m : gmap string (Expr (ndarray := ndarray))) a b c d,
    <["step" := a]> (<["epoch" := b]> (<["prediction_func" := c]>
      (<["train_prediction_func" := d]> m))) !! "prediction_func" = Some c)
    by (intros; lookup_key).
  assert (Ht : forall (m : gmap string (Expr (ndarray := ndarray))) a b c d,
    <["step" := a]> (<["epoch" := b]> (<["prediction_func" := c]>
      (<["train_prediction_func" := d]> m))) !! "train_prediction_func" = Some d)
    by (intros; lookup_key).
  cbn [variables set_variables]. rewrite Hp, Ht.
  split; [done|]. split; [done|]. split.
  - intros Hnone. by rewrite without_Dropout_id.
  - intros pre d post -> Hd Hnone Hinj Hne Heq.
    injection Heq as Heq. revert Heq. by apply passes_diverge.
Qed.

(** ** Normalisation of the connection *)

Lemma link_reversed_app (xs ys : list PyObject) (c : PyObject (ndarray := ndarray)) :
  link_reversed (xs ++ ys) c = link_reversed xs c ≫= link_reversed ys.
Proof.
  revert c. induction xs as [|x xs IH]; intros c; [done|].
  cbn [app link_reversed]. destruct (LayerConnection x c); cbn; [apply IH|done].
Qed.

Lemma link_reversed_layers_inv (ls : list Layer) (c : Chain (ndarray := ndarray)) r :
  link_reversed (reverse (layer_object <$> ls)) (PyChain c) = Return r ->
  r = PyChain (foldr (fun l c => ChainLink (ChainLayer l) c) c ls).
Proof.
  revert r. induction ls as [|l ls IH]; intros r; [by intros [= <-]|].
  rewrite fmap_cons, reverse_cons, link_reversed_app.
  destruct (link_reversed (reverse (layer_object <$> ls)) (PyChain c)) as [r'|];
    [|done].
  rewrite (IH r' eq_refl). cbn [mbind Outcome_bind link_reversed LayerConnection layer_object].
  destruct (link_refused _ _); [done|]. by intros [= <-].
Qed.

Lemma link_reversed_layers (ls : list Layer) (c : Chain (ndarray := ndarray)) :
  (forall l c', In l ls -> link_refused (ChainLayer l) c' = None) ->
  link_reversed (reverse (layer_object <$> ls)) (PyChain c)
  = Return (PyChain (foldr (fun l c => ChainLink (ChainLayer l) c) c ls)).
Proof.
  induction ls as [|l ls IH]; intros Hlinks; [done|].
  rewrite fmap_cons, reverse_cons, link_reversed_app.
  rewrite IH by (intros; apply Hlinks; by right).
  cbn [mbind Outcome_bind link_reversed LayerConnection layer_object].
  by rewrite Hlinks by (by left).
Qed.

Lemma is_list_of_integers_layers (l : Layer (ndarray := ndarray)) items :
  forallb is_int (layer_object l :: items) = false.
Proof. reflexivity. Qed.

(** What [link_layers] does with a list of layers: the loop over the
    layers before the last one. *)
Lemma link_layers_list_run (ls : list Layer) (final : Layer (ndarray := ndarray)) :
  link_layers (PyList (layer_object <$> (ls ++ [final])))
  = link_reversed (reverse (layer_object <$> ls)) (PyChain (ChainLayer final)).
Proof.
  unfold link_layers.
  assert (Hint : is_list_of_integers (PyList (layer_object <$> ls ++ [final])) = false)
    by (destruct ls; reflexivity).
  rewrite Hint. cbn [mbind Outcome_bind].
  destruct (layer_object <$> ls ++ [final]) as [|first items] eqn:Hitems.
  { by destruct ls. }
  assert (Hfirst : isinstance_BaseLayer first = true).
  { destruct ls; cbn in Hitems; injection Hitems as <- _; reflexivity. }
  rewrite Hfirst, <- Hitems, fmap_app, reverse_app. cbn [fmap list_fmap reverse app].
  change (rev_append [layer_object final] []) with [layer_object final].
  reflexivity.
Qed.

(** A list of layers is linked into the chain of its elements. *)
Lemma link_layers_list (ls : list Layer) (final : Layer (ndarray := ndarray)) :
  (forall l c, In l ls -> link_refused (ChainLayer l) c = None) ->
  link_layers (PyList (layer_object <$> (ls ++ [final])))
  = Return (PyChain (chain_of ls final)).
Proof. intros Hlinks. rewrite link_layers_list_run. by apply link_reversed_layers. Qed.

Lemma link_layers_list_inv (ls : list Layer) (final : Layer (ndarray := ndarray)) r :
  link_layers (PyList (layer_object <$> (ls ++ [final]))) = Return r ->
  r = PyChain (chain_of ls final).
Proof. rewrite link_layers_list_run. apply link_reversed_layers_inv. Qed.


Lemma chain_layers_chain_of (ls : list Layer) (final : Layer (ndarray := ndarray)) :
  chain_layers (chain_of ls final) = ls ++ [final].
Proof. induction ls as [|l ls IH]; [done|]. cbn. by rewrite <- IH. Qed.

Lemma terminus_chain_of (ls : list Layer) (final : Layer (ndarray := ndarray)) :
  terminus (chain_of ls final) = final.
Proof. induction ls as [|l ls IH]; [done|]. apply IH. Qed.

Lemma terminus_last (c : Chain (ndarray := ndarray)) :
  last (chain_layers c) = Some (terminus c).
Proof.
  induction c as [l|lhs _ rhs IH]; [done|].
  cbn. rewrite last_app, IH. done.
Qed.

Lemma chain_layers_head (c : Chain (ndarray := ndarray)) :
  exists first, head (chain_layers c) = Some first.
Proof.
  induction c as [l|lhs [first IH] rhs _]; [by eexists|].
  exists first. cbn. destruct (chain_layers lhs); [done|]. exact IH.
Qed.

(** [clean_layers] returns nothing but a chain. *)
Lemma clean_layers_chain connection (c : PyObject (ndarray := ndarray)) :
  clean_layers connection = Return c -> exists ch, c = PyChain ch.
Proof.
  unfold clean_layers. destruct (link_layers connection) as [c'|]; [|done].
  cbn [mbind Outcome_bind]. unfold check_output_layer.
  destruct (get_output_layer c') as [t|] eqn:Ht; cbn [mbind Outcome_bind]; [|done].
  destruct (isinstance_Output t); [|done].
  intros [= <-]. destruct c' as [n|ch|items|items]; try discriminate. by eexists.
Qed.

(** C4: when the normalised connection has a terminal layer, an instance
    of [Output] lets [clean_layers] return the normalised connection, and
    any other terminal layer makes it raise [NetworkConnectionError]; the
    constructor then raises the same exception as its first step and
    leaves the object as it was: no network is built. *)
Theorem terminal_layer_validated hook connection options self0 chain terminal :
  link_layers connection = Return chain ->
  get_output_layer chain = Return terminal ->
  (isinstance_Output terminal = false ->
     clean_layers connection = Raise NetworkConnectionError
     /\ __init__ hook connection options self0 = (Raise NetworkConnectionError, self0))
  /\ (isinstance_Output terminal = true ->
     clean_layers connection = Return chain).
Proof.
  intros Hlink Hterminal.
  assert (Hclean : clean_layers connection =
                   if isinstance_Output terminal then Return chain
                   else Raise NetworkConnectionError).
  { unfold clean_layers. rewrite Hlink. cbn [mbind Outcome_bind].
    unfold check_output_layer. by rewrite Hterminal. }
  split; intros Hout; rewrite Hout in Hclean; [|done].
  split; [done|]. unfold __init__. run. by rewrite Hclean.
Qed.

(** A sequence of one layer gets no treatment of its own: no link is
    built, and the check of the terminal layer is applied to the
    [output_layer] attribute of the layer object itself. *)
Lemma single_layer_run (l : Layer (ndarray := ndarray)) :
  let checked :=
    terminal ← layer_output_layer l;
    if isinstance_Output terminal then Return (layer_object l)
    else Raise NetworkConnectionError in
  clean_layers (PyList [layer_object l]) = checked
  /\ clean_layers (PyTuple [layer_object l]) = checked.
Proof. split; reflexivity. Qed.

(** C9: on a sequence of one layer [clean_layers] does attempt the check
    of the terminal layer, but through the [output_layer] attribute of the
    layer object, which a bare layer does not have: the check fails with
    [AttributeError] before it compares anything, for an [Output] layer as
    for any other, and the constructor fails with it and builds nothing.
    The exception of the terminal-layer validation,
    [NetworkConnectionError], is not the one raised. *)
Theorem single_layer_sequence_crashes hook (l : Layer (ndarray := ndarray))
    options self0 :
  layer_output_layer l = Raise AttributeError ->
  clean_layers (PyList [layer_object l]) = Raise AttributeError
  /\ clean_layers (PyTuple [layer_object l]) = Raise AttributeError
  /\ clean_layers (PyList [layer_object l]) <> Raise NetworkConnectionError
  /\ __init__ hook (PyList [layer_object l]) options self0
     = (Raise AttributeError, self0).
Proof.
  intros Hattribute.
  destruct (single_layer_run l) as [Hlist Htuple]. cbv zeta in Hlist, Htuple.
  rewrite Hattribute in Hlist, Htuple. cbn [mbind Outcome_bind] in Hlist, Htuple.
  split; [done|]. split; [done|]. split; [by rewrite Hlist|].
  unfold __init__. run. by rewrite Hlist.
Qed.

(** ** The input variable *)

Lemma dim_to_variable_type_None ndim :
  ndim <> 2 -> ndim <> 3 -> ndim <> 4 -> dim_to_variable_type ndim = None.
Proof. intros. unfold dim_to_variable_type. by repeat case_decide. Qed.

Lemma dim_to_variable_type_Some ndim ty :
  dim_to_variable_type ndim = Some ty -> ndim_of ty = Some ndim.
Proof.
  unfold dim_to_variable_type. repeat case_decide; intros [= <-]; by subst.
Qed.

(** The whole of [__init__] once the input layer has an accepted rank. *)
Lemma init_run hook connection options self0 ch first final b ty :
  clean_layers connection = Return (PyChain ch) ->
  head (chain_layers ch) = Some first ->
  last (chain_layers ch) = Some final ->
  for_each initialize (removelast (chain_layers ch)) = Return tt ->
  BaseNetwork_init options = Return b ->
  dim_to_variable_type (weight_ndim first) = Some ty ->
  let x := Symbol ty "x" in
  let y := create_output_variable (error b) "y" in
  let passes := forward_passes (removelast (chain_layers ch)) x x in
  let loss := error_call (error b) y passes.2 in
  let compiled := <["predict_raw" := theano_function [x] passes.1 []]> ∅ in
  let ready :=
    set_variables
      (<["step" := Shared (NetworkShared "step")]>
       (<["epoch" := Shared (NetworkShared "epoch")]>
        (<["prediction_func" := passes.1]>
         (<["train_prediction_func" := passes.2]>
          (<["error_func" := loss]>
           (<["network_input" := x]> (<["network_output" := y]> ∅)))))))
      (set_storage
         (set_value (NetworkShared "epoch") (IntValue (last_epoch b))
            (set_value (NetworkShared "step") (asfloat (step b)) (storage self0)))
         (set_methods ∅
            (set_base b
               (set_train_layers (removelast (chain_layers ch))
                  (set_output_layer (Some final)
                     (set_hidden_layers (removelast (tail (chain_layers ch)))
                        (set_input_layer (Some first)
                           (set_layers (chain_layers ch)
                              (set_connection (Some (PyChain ch)) self0)))))))))
  in
  __init__ hook connection options self0 =
  match init_train_updates hook (set_methods compiled ready) with
  | Return train_updates =>
      (Return tt,
       set_methods
         (<["prediction_error" := theano_function [x; y] loss []]>
          (<["train_epoch" := theano_function [x; y] loss train_updates]> compiled))
         ready)
  | Raise e => (Raise e, set_methods compiled ready)
  end.
Proof.
  intros Hclean Hfirst Hfinal Hinit Hbase Hty x y passes loss compiled ready.
  rewrite (init_prefix hook connection options self0 ch first final b) by done.
  cbv zeta. rewrite Hty. fold x y. rewrite bind_run.
  match goal with
  | |- context [init_variables ?s] => set (s1 := s)
  end.
  assert (Hx : variables s1 !! "network_input" = Some x) by (subst s1; lookup_key).
  assert (Hy : variables s1 !! "network_output" = Some y) by (subst s1; lookup_key).
  assert (Hb : base s1 = Some b) by reflexivity.
  pose proof (init_variables_run s1 _ _ _ Hx Hy Hb) as Hrun.
  cbv zeta in Hrun. rewrite Hrun. clear Hrun.
  match goal with
  | |- context [init_methods hook ?s] => set (s2 := s)
  end.
  assert (Hx2 : variables s2 !! "network_input" = Some x)
    by (subst s2; cbn [variables set_variables]; subst s1; lookup_key).
  assert (Hy2 : variables s2 !! "network_output" = Some y)
    by (subst s2; cbn [variables set_variables]; subst s1; lookup_key).
  assert (Hp2 : variables s2 !! "prediction_func" = Some passes.1)
    by (subst s2; lookup_key).
  assert (Hl2 : variables s2 !! "error_func" = Some loss)
    by (subst s2; lookup_key).
  pose proof (init_methods_run hook s2 _ _ _ _ Hx2 Hy2 Hp2 Hl2) as Hrun.
  cbv zeta in Hrun. rewrite Hrun. clear Hrun.
  reflexivity.
Qed.

(** C3: when the weight of the input layer has a number of dimensions
    other than 2, 3 and 4, the constructor raises the exception of
    [create_input_variable] ([ValueError]) with neither [self.variables]
    nor [self.methods] created, hence before any function is compiled; for
    2, 3 and 4 dimensions the input variable ['x'] is created with the
    type of that many dimensions, and the object keeps it whatever
    happens afterwards. *)
Theorem input_rank_checked hook connection options store ch first b :
  clean_layers connection = Return (PyChain ch) ->
  head (chain_layers ch) = Some first ->
  for_each initialize (removelast (chain_layers ch)) = Return tt ->
  BaseNetwork_init options = Return b ->
  let result := __init__ hook connection options (new_object store) in
  (weight_ndim first <> 2 -> weight_ndim first <> 3 -> weight_ndim first <> 4 ->
     create_input_variable first "x" = Raise ValueError
     /\ result.1 = Raise ValueError
     /\ variables result.2 = ∅
     /\ methods result.2 = ∅)
  /\ (weight_ndim first = 2 \/ weight_ndim first = 3 \/ weight_ndim first = 4 ->
     exists ty,
       ndim_of ty = Some (weight_ndim first)
       /\ create_input_variable first "x" = Return (Symbol ty "x")
       /\ variables result.2 !! "network_input" = Some (Symbol ty "x")).
Proof.
  intros Hclean Hfirst Hinit Hbase result.
  pose proof (terminus_last ch) as Hfinal.
  split.
  - intros H2 H3 H4.
    pose proof (dim_to_variable_type_None _ H2 H3 H4) as Hty.
    subst result.
    rewrite (init_prefix hook connection options _ ch first _ b) by done.
    unfold create_input_variable. cbv zeta. by rewrite Hty.
  - intros Hrank.
    assert (exists ty, dim_to_variable_type (weight_ndim first) = Some ty) as [ty Hty].
    { unfold dim_to_variable_type. repeat case_decide; eauto. lia. }
    exists ty. split; [by apply dim_to_variable_type_Some|].
    split; [unfold create_input_variable; by rewrite Hty|].
    subst result.
    rewrite (init_run hook connection options _ ch first _ b ty) by done.
    cbv zeta.
    destruct (init_train_updates _ _); cbn [snd]; lookup_key.
Qed.

(** ** The training updates *)

Lemma extend_param_updates_rule hook self layer params acc
    (rule : SharedVariable -> list (UpdateRule (ndarray := ndarray))) :
  (forall p, In p params ->
     call_method hook self [LayerArgument layer; ParameterArgument p]
     = Return (rule p)) ->
  extend_param_updates hook self layer params acc
  = Return (acc ++ flat_map rule params).
Proof.
  revert acc. induction params as [|p ps IH]; intros acc Hhook.
  - cbn. by rewrite app_nil_r.
  - cbn [extend_param_updates flat_map].
    rewrite (Hhook p) by (by left). cbn [mbind Outcome_bind].
    rewrite IH by (intros; apply Hhook; by right). by rewrite app_assoc.
Qed.

Lemma extend_layer_updates_rule hook self ls acc
    (rule : Layer -> SharedVariable -> list (UpdateRule (ndarray := ndarray))) :
  (forall l p, In l ls -> In p (parameters l) ->
     call_method hook self [LayerArgument l; ParameterArgument p]
     = Return (rule l p)) ->
  extend_layer_updates hook self ls acc
  = Return (acc ++ flat_map (fun l => flat_map (rule l) (parameters l)) ls).
Proof.
  revert acc. induction ls as [|l ls IH]; intros acc Hhook.
  - cbn. by rewrite app_nil_r.
  - cbn [extend_layer_updates flat_map]. unfold init_layer_updates.
    rewrite (extend_param_updates_rule hook self l _ [] (rule l))
      by (intros; apply Hhook; [by left|done]).
    cbn [mbind Outcome_bind app].
    rewrite IH by (intros; apply Hhook; [by right|done]). by rewrite app_assoc.
Qed.

(** C5: when the hook returns [rule layer parameter] for every parameter
    of every trainable layer, the updates handed to the compilation of
    [train_epoch] are exactly the results of the hook, layer after layer in
    the order of the pipeline without its last layer, and within a layer
    parameter after parameter in the order of [layer.parameters]; the two
    other functions are compiled without updates. *)
Theorem updates_follow_pipeline hook connection options self0 self
    (rule : Layer -> SharedVariable -> list (UpdateRule (ndarray := ndarray))) :
  __init__ hook connection options self0 = (Return tt, self) ->
  (forall s l p,
     variables s = variables self -> In l (train_layers self) ->
     In p (parameters l) ->
     call_method hook s [LayerArgument l; ParameterArgument p] = Return (rule l p)) ->
  exists x y loss,
    train_layers self = removelast (layers self)
    /\ methods self !! "train_epoch"
       = Some (theano_function [x; y] loss
                 (flat_map (fun l => flat_map (rule l) (parameters l))
                    (removelast (layers self))))
    /\ methods self !! "prediction_error" = Some (theano_function [x; y] loss []).
Proof.
  intros Hinit Hhook.
  destruct (init_inv _ _ _ _ _ Hinit)
    as (ch & first & final & b & ty & ups & Hi).
  cbv zeta in Hi.
  destruct Hi as (_ & _ & _ & _ & _ & _ & Hups & Hlayers & _ & _ & Htrain & _ & _ & Hmethods & _).
  unfold init_train_updates in Hups. cbn [train_layers set_methods] in Hups.
  rewrite (extend_layer_updates_rule hook _ _ [] rule) in Hups
    by (intros; by apply Hhook).
  injection Hups as <-.
  eexists _, _, _. rewrite Hlayers, Htrain, Hmethods.
  split; [done|]. split; [|lookup_key].
  rewrite lookup_insert_ne by discriminate. rewrite lookup_insert_eq.
  by rewrite Htrain.
Qed.

(** ** Calling the compiled functions *)

Lemma write_all_other (news : list (SharedVariable * Value (ndarray := ndarray)))
    store s :
  s ∉ news.*1 -> write_all news store s = store s.
Proof.
  unfold write_all. revert store.
  induction news as [|[s' v] news IH]; intros store Hs; [done|].
  cbn in Hs. apply not_elem_of_cons in Hs as [Hne Hs].
  cbn [foldl]. rewrite IH by done. unfold set_value. cbn. by rewrite decide_False.
Qed.

Lemma eval_updates_keys store env (rules : list (UpdateRule (ndarray := ndarray))) news :
  eval_updates store env rules = Return news -> news.*1 = rules.*1.
Proof.
  revert news. induction rules as [|[s e] rules IH]; intros news.
  - by intros [= <-].
  - cbn [eval_updates]. destruct (eval store env e) as [v|]; [|done].
    cbn [mbind Outcome_bind].
    destruct (eval_updates store env rules) as [vs|]; [|done].
    cbn [mbind Outcome_bind]. intros [= <-]. cbn. f_equal. by apply IH.
Qed.

Lemma default_updates_keys (f : Function (ndarray := ndarray)) store s :
  (forall stream, s <> RandomState stream) -> s ∉ (default_updates f store).*1.
Proof.
  intros Hs Hin. unfold default_updates in Hin.
  apply list_elem_of_fmap in Hin as ([s' v] & -> & Hin).
  apply list_elem_of_fmap in Hin as (stream & [= -> _] & _).
  by apply (Hs stream).
Qed.

(** A call writes to the targets of the updates and to the states of
    random streams, and to nothing else. *)
Lemma call_function_frame (f : Function (ndarray := ndarray)) args store s :
  s ∉ (updates f).*1 ->
  (forall stream, s <> RandomState stream) ->
  (call_function f args store).2 s = store s.
Proof.
  intros Hs Hrandom. unfold call_function.
  destruct (bind_inputs (inputs f) args) as [env|]; [|done].
  destruct (eval store env (outputs f)) as [v|]; [|done].
  destruct (eval_updates store env (updates f)) as [news|] eqn:Hnews; [|done].
  cbn [snd]. rewrite write_all_other
    by (by rewrite (eval_updates_keys _ _ _ _ Hnews)).
  apply write_all_other. by apply default_updates_keys.
Qed.

(** A function without updates whose output draws from no random stream
    writes nothing. *)
Lemma call_function_quiet (f : Function (ndarray := ndarray)) args store :
  updates f = [] -> random_streams (outputs f) = [] ->
  (call_function f args store).2 = store.
Proof.
  intros Hf Hrandom. unfold call_function, default_updates. rewrite Hf, Hrandom.
  destruct (bind_inputs (inputs f) args) as [env|]; [|done].
  cbn [eval_updates]. by destruct (eval store env (outputs f)).
Qed.

Lemma run_function_quiet (f : Function (ndarray := ndarray)) args self :
  updates f = [] -> random_streams (outputs f) = [] ->
  exists r, run_function f args self = (r, self).
Proof.
  intros Hf Hrandom. unfold run_function.
  pose proof (call_function_quiet f args (storage self) Hf Hrandom) as Hst.
  destruct (call_function f args (storage self)) as [r st]. cbn in Hst. subst st.
  exists r. by rewrite set_storage_same.
Qed.

Lemma run_function_state (f : Function (ndarray := ndarray)) args self :
  (run_function f args self).2
  = set_storage (call_function f args (storage self)).2 self.
Proof.
  unfold run_function. by destruct (call_function f args (storage self)).
Qed.

Lemma call_compiled_run name (f : Function (ndarray := ndarray)) args self :
  methods self !! name = Some f ->
  call_compiled name args self = run_function f args self.
Proof. intros Hf. unfold call_compiled. run. by rewrite (attribute_Some _ _ _ Hf). Qed.

Lemma predict_raw_run (f : Function (ndarray := ndarray)) first input self :
  methods self !! "predict_raw" = Some f ->
  input_layer self = Some first ->
  predict_raw input self
  = run_function f
      [format_data input (Some (does_layer_accept_1d_feature first))] self.
Proof.
  intros Hf Hfirst. unfold predict_raw. run.
  rewrite (attribute_Some _ _ _ Hfirst). by apply call_compiled_run.
Qed.

Lemma uniform_pass_draws_nothing (ls : list Layer) (e : Expr (ndarray := ndarray)) :
  Forall draws_nothing ls -> random_streams e = [] ->
  random_streams (uniform_pass ls e) = [].
Proof.
  intros Hls. revert e. induction Hls as [|l ls Hl _ IH]; intros e He; [done|].
  apply IH. by apply Hl.
Qed.

Lemma without_Dropout_draws_nothing (ls : list (Layer (ndarray := ndarray))) :
  Forall (fun l => is_Dropout l = false -> draws_nothing l) ls ->
  Forall draws_nothing (without_Dropout ls).
Proof.
  induction 1 as [|l ls Hl _ IH]; [constructor|].
  unfold without_Dropout in *. cbn [List.filter].
  destruct (is_Dropout l) eqn:Hd; cbn [negb]; [done|]. constructor; [by apply Hl|done].
Qed.

(** On a constructed network in which only Dropout layers are stochastic,
    [predict_raw] writes nothing: the inference expression passes by the
    Dropout layers. *)
Lemma predict_raw_quiet hook connection options self0 self input :
  __init__ hook connection options self0 = (Return tt, self) ->
  Forall (fun l => is_Dropout l = false -> draws_nothing l) (train_layers self) ->
  exists r, predict_raw input self = (r, self).
Proof.
  intros Hinit Hlayers.
  destruct (init_inv _ _ _ _ _ Hinit)
    as (ch & first & final & b & ty & ups & Hi).
  cbv zeta in Hi.
  destruct Hi as (_ & _ & _ & _ & _ & _ & _ & _ & Hfirst & _ & Htrain & _ & _ & Hmethods & _).
  erewrite predict_raw_run; [| rewrite Hmethods; lookup_key | done].
  apply run_function_quiet; [done|]. cbn [outputs theano_function].
  rewrite forward_passes_fold. cbn [fst]. rewrite <- Htrain.
  apply uniform_pass_draws_nothing; [|done].
  by apply without_Dropout_draws_nothing.
Qed.

(** C6: on a constructed network whose layers other than the Dropout
    instances draw from no random stream, [predict_raw] returns with the
    object unchanged, the values of all shared variables included, so that
    a second call with the same input finds the state of the first and
    returns the same value; [prediction_error] is compiled without updates
    and changes the value of no parameter and of no variable of the
    network (only the random streams of the training expression move on),
    nor anything else of the object. *)
Theorem evaluation_has_no_effect hook connection options self0 self :
  __init__ hook connection options self0 = (Return tt, self) ->
  Forall (fun l => is_Dropout l = false -> draws_nothing l) (train_layers self) ->
  (forall input, exists r,
     predict_raw input self = (r, self)
     /\ (predict_raw input ≫= fun r1 =>
         predict_raw input ≫= fun r2 => mret (r1, r2)) self
        = (r ≫= fun v => Return (v, v), self))
  /\ (forall input target,
        let after := (prediction_error input target self).2 in
        (forall s, (forall stream, s <> RandomState stream) ->
                   storage after s = storage self s)
        /\ after = set_storage (storage after) self).
Proof.
  intros Hinit Hlayers. split.
  - intros input.
    destruct (predict_raw_quiet _ _ _ _ _ input Hinit Hlayers) as [r Hraw].
    exists r. split; [done|].
    rewrite bind_run, Hraw. destruct r as [v|e]; [|done].
    rewrite bind_run, Hraw. done.
  - intros input target after. subst after.
    destruct (init_inv _ _ _ _ _ Hinit)
      as (ch & first & final & b & ty & ups & Hi).
    cbv zeta in Hi.
    destruct Hi as (_ & _ & _ & _ & _ & _ & _ & _ & _ & _ & _ & _ & _ & Hmethods & _).
    unfold prediction_error.
    erewrite call_compiled_run; [| rewrite Hmethods; lookup_key].
    rewrite run_function_state. cbn [storage set_storage]. split; [|done].
    intros s Hs. apply call_function_frame; [|done].
    cbn [updates theano_function fmap list_fmap]. apply not_elem_of_nil.
Qed.

(** C7: [predict] returns the output of the last layer of the pipeline
    applied to the value that [predict_raw] returns, while the expression
    compiled into [predict_raw] is built from the layers before the last
    one only. *)
Theorem predict_postprocesses hook connection options self0 self input :
  __init__ hook connection options self0 = (Return tt, self) ->
  exists final x,
    last (layers self) = Some final
    /\ methods self !! "predict_raw"
       = Some (theano_function [x]
                 (uniform_pass (without_Dropout (removelast (layers self))) x) [])
    /\ predict input self
       = match predict_raw input self with
         | (Return raw_prediction, self') =>
             (Return (output final (Const raw_prediction)), self')
         | (Raise e, self') => (Raise e, self')
         end.
Proof.
  intros Hinit.
  destruct (init_inv _ _ _ _ _ Hinit)
    as (ch & first & final & b & ty & ups & Hi).
  cbv zeta in Hi.
  destruct Hi as (_ & _ & Hlast & _ & _ & _ & _ & Hlayers & Hfirst & Hfinal & _ & _ & _ & Hmethods & _).
  exists final, (Symbol ty "x"). rewrite Hlayers. split; [done|].
  assert (Hf : methods self !! "predict_raw"
               = Some (theano_function [Symbol ty "x"]
                         (uniform_pass (without_Dropout (removelast (chain_layers ch)))
                            (Symbol ty "x")) [])).
  { rewrite Hmethods, forward_passes_fold. lookup_key. }
  split; [done|].
  unfold predict. rewrite bind_run.
  pose proof (predict_raw_run _ first input self Hf Hfirst) as Hraw.
  pose proof (f_equal snd Hraw) as Hstate. rewrite run_function_state in Hstate.
  destruct (predict_raw input self) as [[raw|e] self']; [|done].
  cbn [snd] in Hstate. subst self'. run.
  by rewrite (attribute_Some _ _ _ Hfinal).
Qed.

(** ** The start of an epoch *)

(** C8 (as amended): [on_epoch_start_update] runs the hook of the base
    class and then writes the epoch into the shared variable stored under
    ['epoch']; when the hook of the base class writes no shared variable,
    every other shared variable, the step variable and the parameters among
    them, keeps its value, and the dictionaries of variables and of
    compiled functions are those the base class left. *)
Theorem epoch_start_writes_epoch epoch self self1 s :
  BaseNetwork_on_epoch_start_update epoch self = (Return tt, self1) ->
  storage self1 = storage self ->
  variables self1 !! "epoch" = Some (Shared s) ->
  exists self',
    on_epoch_start_update epoch self = (Return tt, self')
    /\ storage self' s = IntValue epoch
    /\ (forall s', s' <> s -> storage self' s' = storage self s')
    /\ (s = NetworkShared "epoch" ->
        storage self' (NetworkShared "step") = storage self (NetworkShared "step")
        /\ forall p, storage self' (ParameterShared p) = storage self (ParameterShared p))
    /\ variables self' = variables self1
    /\ methods self' = methods self1.
Proof.
  intros Hbase Hstorage Hepoch.
  exists (set_storage (set_value s (IntValue epoch) (storage self1)) self1).
  assert (Hother : forall s', s' <> s ->
    set_value s (IntValue epoch) (storage self1) s' = storage self s').
  { intros s' Hs'. unfold set_value. rewrite decide_False by done. by rewrite Hstorage. }
  split.
  - unfold on_epoch_start_update. rewrite bind_run, Hbase. run.
    by rewrite (attribute_Some _ _ _ Hepoch).
  - cbn [storage set_storage variables methods].
    split; [unfold set_value; by rewrite decide_True|].
    split; [done|]. split; [|done].
    intros ->. split; [by apply Hother|]. intros p. by apply Hother.
Qed.

(** ** What reaches the compiled functions *)

(** C10: [train_epoch] hands its two arguments to the compiled function as
    they are, whereas [prediction_error] and [predict_raw] hand over their
    arguments passed through [format_data], and [train] passes its data
    through [format_data] before it calls the training loop of the base
    class. *)
Theorem train_epoch_does_not_format self first final
    (f_train f_error f_raw : Function (ndarray := ndarray)) :
  methods self !! "train_epoch" = Some f_train ->
  methods self !! "prediction_error" = Some f_error ->
  methods self !! "predict_raw" = Some f_raw ->
  input_layer self = Some first ->
  output_layer self = Some final ->
  (forall input target,
     train_epoch input target self = run_function f_train [input; target] self)
  /\ (forall input target,
     prediction_error input target self
     = run_function f_error
         [format_data input None; format_data target None] self)
  /\ (forall input,
     predict_raw input self
     = run_function f_raw
         [format_data input (Some (does_layer_accept_1d_feature first))] self)
  /\ (forall input_train target_train input_test target_test,
     let formatted is_feature1d v := format_data v (Some is_feature1d) in
     train input_train target_train input_test target_test self
     = BaseNetwork_train
         (formatted (does_layer_accept_1d_feature first) input_train)
         (formatted (does_layer_accept_1d_feature final) target_train)
         (formatted (does_layer_accept_1d_feature first) <$> input_test)
         (formatted (does_layer_accept_1d_feature final) <$> target_test)
         self).
Proof.
  intros Htrain Herror Hraw Hfirst Hfinal. repeat split.
  - intros. by apply call_compiled_run.
  - intros. by apply call_compiled_run.
  - intros. by apply predict_raw_run.
  - intros. unfold train. run.
    rewrite (attribute_Some _ _ _ Hfirst). run.
    by rewrite (attribute_Some _ _ _ Hfinal).
Qed.

(** ** More on the normalisation of the connection *)

Lemma check_output_layer_chain_of (ls : list Layer) (final : Layer (ndarray := ndarray)) :
  ls <> [] ->
  check_output_layer (PyChain (chain_of ls final))
  = if bool_decide (layer_class final = OutputLayer)
    then Return (PyChain (chain_of ls final))
    else Raise NetworkConnectionError.
Proof.
  intros Hls. destruct ls as [|l ls]; [done|].
  unfold check_output_layer. cbn [chain_of foldr get_output_layer mbind Outcome_bind].
  fold (chain_of ls final). rewrite terminus_chain_of. reflexivity.
Qed.

Lemma clean_layers_linked (ls : list Layer) (final : Layer (ndarray := ndarray)) :
  ls <> [] ->
  (forall l c, In l ls -> link_refused (ChainLayer l) c = None) ->
  clean_layers (PyList (layer_object <$> ls ++ [final]))
  = if bool_decide (layer_class final = OutputLayer)
    then Return (PyChain (chain_of ls final))
    else Raise NetworkConnectionError.
Proof.
  intros Hls Hlinks. unfold clean_layers. rewrite link_layers_list by done.
  cbn [mbind Outcome_bind]. by rewrite check_output_layer_chain_of.
Qed.

(** A list of layers that [clean_layers] accepts has become the chain of
    its elements, and its last element is an [Output] instance. *)
Lemma clean_layers_linked_inv (ls : list Layer) (final : Layer (ndarray := ndarray)) c :
  ls <> [] ->
  clean_layers (PyList (layer_object <$> ls ++ [final])) = Return c ->
  c = PyChain (chain_of ls final) /\ layer_class final = OutputLayer.
Proof.
  intros Hls. unfold clean_layers.
  destruct (link_layers _) as [r|] eqn:Hlink; [|done].
  apply link_layers_list_inv in Hlink as ->. cbn [mbind Outcome_bind].
  rewrite check_output_layer_chain_of by done.
  case_bool_decide; [|done]. by intros [= <-].
Qed.


(** X2: a list or a tuple whose first element is an already linked
    connection is left as it is by the [elif] branch, and the lookup of
    [output_layer] on the list then fails: [clean_layers] raises
    [AttributeError], whatever the linked connections are. *)
Theorem list_of_connections_rejected (lhs rhs : Chain (ndarray := ndarray)) items :
  clean_layers (PyList (PyChain (ChainLink lhs rhs) :: items)) = Raise AttributeError
  /\ clean_layers (PyTuple (PyChain (ChainLink lhs rhs) :: items)) = Raise AttributeError.
Proof. split; reflexivity. Qed.

Lemma link_layers_chain (ch : Chain (ndarray := ndarray)) :
  link_layers (PyChain ch) = Return (PyChain ch).
Proof. reflexivity. Qed.

(** X3: normalisation is idempotent: a connection that [clean_layers]
    returns is returned unchanged when it is given to [clean_layers]
    again. *)
Theorem clean_layers_idempotent connection (cleaned : PyObject (ndarray := ndarray)) :
  clean_layers connection = Return cleaned ->
  clean_layers cleaned = Return cleaned.
Proof.
  intros Hclean. destruct (clean_layers_chain _ _ Hclean) as [ch ->].
  unfold clean_layers in *. rewrite link_layers_chain.
  destruct (link_layers connection) as [c'|]; [|done].
  cbn [mbind Outcome_bind] in *. unfold check_output_layer in *.
  destruct (get_output_layer c') as [t|] eqn:Ht; cbn [mbind Outcome_bind] in Hclean;
    [|done].
  destruct (isinstance_Output t) eqn:Hout; [|done].
  injection Hclean as ->. by rewrite Ht; cbn [mbind Outcome_bind]; rewrite Hout.
Qed.

(** X4: a tuple is treated as the list of its elements: [clean_layers]
    gives the same result, value or exception, for both. *)
Theorem clean_layers_tuple_as_list (items : list (PyObject (ndarray := ndarray))) :
  clean_layers (PyTuple items) = clean_layers (PyList items).
Proof.
  unfold clean_layers, link_layers.
  change (is_list_of_integers (PyTuple items)) with (is_list_of_integers (PyList items)).
  by destruct (is_list_of_integers (PyList items)).
Qed.

(** ** More on the constructor *)

(** X5: when the generation of the training updates raises, the
    constructor raises the same exception with [predict_raw] already
    compiled and neither [train_epoch] nor [prediction_error]: the three
    functions are compiled in that order and the updates are generated
    while the second is. *)
Theorem failed_updates_stop_compilation hook connection options self0 ch first b ty e :
  clean_layers connection = Return (PyChain ch) ->
  head (chain_layers ch) = Some first ->
  for_each initialize (removelast (chain_layers ch)) = Return tt ->
  BaseNetwork_init options = Return b ->
  dim_to_variable_type (weight_ndim first) = Some ty ->
  (forall s, train_layers s = removelast (chain_layers ch) ->
             init_train_updates hook s = Raise e) ->
  let result := __init__ hook connection options self0 in
  result.1 = Raise e
  /\ is_Some (methods result.2 !! "predict_raw")
  /\ methods result.2 !! "train_epoch" = None
  /\ methods result.2 !! "prediction_error" = None.
Proof.
  intros Hclean Hfirst Hinit Hbase Hty Hhook result.
  pose proof (terminus_last ch) as Hfinal. subst result.
  rewrite (init_run hook connection options self0 ch first _ b ty) by done.
  cbv zeta. rewrite Hhook by reflexivity. cbn [fst snd methods set_methods].
  split; [done|]. split; [by rewrite lookup_insert_eq|].
  split; by rewrite lookup_insert_ne, lookup_empty.
Qed.

Lemma removelast_then_last {A} (ls : list A) (final : A) :
  last ls = Some final -> removelast ls ++ [final] = ls.
Proof.
  induction ls as [|a ls IH]; [done|].
  destruct ls as [|a' ls]; [by intros [= ->]|].
  intros Hlast. cbn [removelast app]. f_equal. by apply IH.
Qed.

(** X6: a constructed network holds exactly three compiled functions.
    [predict_raw] has the single input ['x'] and the inference expression
    as its output; [train_epoch] and [prediction_error] share the inputs
    ['x'] then ['y'] and the same output, the error function applied to
    the target variable first and to the training expression second, the
    expression through every trainable layer, Dropout layers included;
    only [train_epoch] has updates. *)
Theorem compiled_functions hook connection options self0 self :
  __init__ hook connection options self0 = (Return tt, self) ->
  exists ty b train_updates,
    let x := Symbol ty "x" in
    let y := create_output_variable (error b) "y" in
    let loss :=
      error_call (error b) y (uniform_pass (removelast (layers self)) x) in
    base self = Some b
    /\ dom (methods self) = {["predict_raw"; "train_epoch"; "prediction_error"]}
    /\ methods self !! "predict_raw"
       = Some (theano_function [x]
                 (uniform_pass (without_Dropout (removelast (layers self))) x) [])
    /\ methods self !! "train_epoch"
       = Some (theano_function [x; y] loss train_updates)
    /\ methods self !! "prediction_error"
       = Some (theano_function [x; y] loss []).
Proof.
  intros Hinit.
  destruct (init_inv _ _ _ _ _ Hinit)
    as (ch & first & final & b & ty & ups & Hi).
  cbv zeta in Hi.
  destruct Hi as (_ & _ & _ & _ & _ & _ & _ & Hlayers & _ & _ & _ & Hbase & _ & Hmethods & _).
  exists ty, b, ups. cbv zeta. rewrite Hlayers, Hmethods, forward_passes_fold.
  cbn [fst snd]. split; [done|]. split.
  - rewrite !dom_insert_L, dom_empty_L. set_solver.
  - split; [lookup_key|]. split; lookup_key.
Qed.

Lemma init_hidden_layers hook connection options self0 self :
  __init__ hook connection options self0 = (Return tt, self) ->
  hidden_layers self = removelast (tail (layers self)).
Proof.
  intros Hinit.
  destruct (init_inv _ _ _ _ _ Hinit)
    as (ch & first & final & b & ty & ups & Hi).
  cbv zeta in Hi.
  destruct Hi as (Hclean & Hfirst & Hfinal & Hinitl & Hbase & Hty & _).
  rewrite (init_run hook connection options self0 ch first final b ty) in Hinit
    by done.
  cbv zeta in Hinit.
  destruct (init_train_updates _ _) in Hinit; [|discriminate].
  injection Hinit as <-. reflexivity.
Qed.

(** X7: in a constructed network the trainable layers followed by the
    output layer are the layers of the pipeline; a pipeline of one layer
    has that layer as input and as output layer and nothing to train, and
    a longer one is the input layer, the hidden layers and the output
    layer, the trainable layers being the first two groups. *)
Theorem layer_views hook connection options self0 self :
  __init__ hook connection options self0 = (Return tt, self) ->
  exists first final,
    input_layer self = Some first
    /\ output_layer self = Some final
    /\ train_layers self ++ [final] = layers self
    /\ ((layers self = [final] /\ hidden_layers self = [] /\ train_layers self = []
         /\ input_layer self = output_layer self)
        \/ (layers self = first :: hidden_layers self ++ [final]
            /\ train_layers self = first :: hidden_layers self)).
Proof.
  intros Hinit. pose proof (init_hidden_layers _ _ _ _ _ Hinit) as Hhidden.
  destruct (init_inv _ _ _ _ _ Hinit)
    as (ch & first & final & b & ty & ups & Hi).
  cbv zeta in Hi.
  destruct Hi as (_ & Hfirst & Hfinal & _ & _ & _ & _ & Hlayers & Hin & Hout & Htrain & _).
  exists first, final. rewrite Hin, Hout, Htrain, Hhidden, Hlayers.
  split; [done|]. split; [done|]. split; [by apply removelast_then_last|].
  destruct (chain_layers ch) as [|a [|a' rest]]; [done| |].
  - left. cbn in Hfirst, Hfinal. by simplify_eq.
  - right. injection Hfirst as ->.
    change (last (first :: a' :: rest)) with (last (a' :: rest)) in Hfinal.
    cbn [tail]. rewrite (removelast_then_last _ _ Hfinal). done.
Qed.

(** X8: construction gives the step variable the value [asfloat(step)]
    and the epoch variable the value [last_epoch] of the base class, and
    changes the value of no parameter of any layer. *)
Theorem construction_sets_step_and_epoch hook connection options self0 self :
  __init__ hook connection options self0 = (Return tt, self) ->
  exists b,
    base self = Some b
    /\ variables self !! "step" = Some (Shared (NetworkShared "step"))
    /\ variables self !! "epoch" = Some (Shared (NetworkShared "epoch"))
    /\ storage self (NetworkShared "step") = asfloat (step b)
    /\ storage self (NetworkShared "epoch") = IntValue (last_epoch b)
    /\ forall p, storage self (ParameterShared p) = storage self0 (ParameterShared p).
Proof.
  intros Hinit.
  destruct (init_inv _ _ _ _ _ Hinit)
    as (ch & first & final & b & ty & ups & Hi).
  cbv zeta in Hi.
  destruct Hi as (_ & _ & _ & _ & _ & _ & _ & _ & _ & _ & _ & Hbase & Hvariables & _ & Hstorage).
  exists b. rewrite Hvariables, Hstorage. split; [done|].
  split; [lookup_key|]. split; [lookup_key|]. done.
Qed.

Lemma for_each_Forall {A} (body : A -> Outcome unit) (xs : list A) :
  Forall (fun a => body a = Return tt) xs -> for_each body xs = Return tt.
Proof. induction 1 as [|a xs Ha _ IH]; [done|]. cbn. by rewrite Ha. Qed.

(** X9: only the trainable layers are initialised, so that the
    constructor gets past the initialisation whenever [initialize]
    succeeds on every layer but the last, whatever it would do on the last;
    and when [initialize] raises on a trainable layer, or the constructor
    of the base class raises, the constructor raises the same exception
    with no variable and no function created and no shared value
    changed. *)
Theorem failed_initialisation hook connection options store ch e :
  clean_layers connection = Return (PyChain ch) ->
  let result := __init__ hook connection options (new_object store) in
  let untouched :=
    variables result.2 = ∅ /\ methods result.2 = ∅ /\ storage result.2 = store in
  (for_each initialize (removelast (chain_layers ch)) = Raise e ->
     result.1 = Raise e /\ base result.2 = None /\ untouched)
  /\ (Forall (fun l => initialize l = Return tt) (removelast (chain_layers ch)) ->
      BaseNetwork_init options = Raise e ->
      result.1 = Raise e /\ base result.2 = None /\ untouched).
Proof.
  intros Hclean result untouched. subst result untouched.
  destruct (chain_layers_head ch) as [first Hfirst].
  pose proof (terminus_last ch) as Hfinal.
  split.
  - intros Hinit. unfold __init__. run. rewrite Hclean. run. cbn [list_layers]. run.
    rewrite Hfirst. cbn [item]. run. rewrite Hfinal. cbn [item]. run.
    unfold init_layers. run. cbn [train_layers set_train_layers]. rewrite Hinit.
    done.
  - intros Hall Hbase. apply for_each_Forall in Hall.
    unfold __init__. run. rewrite Hclean. run. cbn [list_layers]. run.
    rewrite Hfirst. cbn [item]. run. rewrite Hfinal. cbn [item]. run.
    unfold init_layers. run. cbn [train_layers set_train_layers]. rewrite Hall.
    rewrite Hbase. done.
Qed.

(** ** More on training *)

Lemma train_epoch_storage self (f : Function (ndarray := ndarray)) input target s :
  methods self !! "train_epoch" = Some f ->
  s ∉ (updates f).*1 ->
  (forall stream, s <> RandomState stream) ->
  storage (train_epoch input target self).2 s = storage self s.
Proof.
  intros Hf Hs Hrandom. unfold train_epoch.
  rewrite (call_compiled_run _ _ _ _ Hf), run_function_state.
  cbn [storage set_storage]. by apply call_function_frame.
Qed.

(** X10: a network can be constructed with the default hook only when no
    trainable layer has a parameter; [train_epoch] is then compiled
    without updates, and a call of it changes the value of no parameter
    and of no variable of the network: of the shared variables only the
    states of the random streams of stochastic layers move. *)
Theorem default_hook_trains_nothing connection options self0 self :
  __init__ init_param_updates connection options self0 = (Return tt, self) ->
  forallb has_no_parameter (train_layers self) = true
  /\ (exists f, methods self !! "train_epoch" = Some f /\ updates f = [])
  /\ forall input target s,
       (forall stream, s <> RandomState stream) ->
       storage (train_epoch input target self).2 s = storage self s.
Proof.
  intros Hinit.
  destruct (init_inv _ _ _ _ _ Hinit)
    as (ch & first & final & b & ty & ups & Hi).
  cbv zeta in Hi.
  destruct Hi as (_ & _ & _ & _ & _ & _ & Hups & _ & _ & _ & Htrain & _ & _ & Hmethods & _).
  unfold init_train_updates in Hups. rewrite extend_layer_updates_default in Hups.
  cbn [train_layers set_methods] in Hups. rewrite Htrain in *.
  destruct (forallb has_no_parameter (removelast (chain_layers ch))); [|done].
  injection Hups as <-.
  assert (Hf : methods self !! "train_epoch"
               = Some (theano_function [Symbol ty "x";
                                        create_output_variable (error b) "y"]
                         (error_call (error b) (create_output_variable (error b) "y")
                            (forward_passes (removelast (chain_layers ch))
                               (Symbol ty "x") (Symbol ty "x")).2) [])).
  { rewrite Hmethods. lookup_key. }
  split; [done|]. split; [by eexists|].
  intros input target s Hs.
  apply (train_epoch_storage self _ input target s Hf); [|done].
  cbn [updates theano_function fmap list_fmap]. apply not_elem_of_nil.
Qed.

Lemma flat_map_targets {A B} (f : A -> list (SharedVariable * B)) (xs : list A) s :
  (forall a, In a xs -> s ∉ (f a).*1) -> s ∉ (flat_map f xs).*1.
Proof.
  induction xs as [|a xs IH]; intros Hs; cbn; [by apply not_elem_of_nil|].
  rewrite fmap_app. apply not_elem_of_app. split.
  - apply Hs. by left.
  - apply IH. intros a' Ha'. apply Hs. by right.
Qed.

(** X12: when every update that the hook returns for a parameter has that
    parameter as its target, [train_epoch] on the constructed network
    changes the value of no shared variable that is neither a parameter of
    a trainable layer nor the state of a random stream: the step and the
    epoch variables keep their values unless a layer lists them among its
    parameters. *)
Theorem train_epoch_changes_trainable_parameters_only
    hook connection options self0 self
    (rule : Layer -> SharedVariable -> list (UpdateRule (ndarray := ndarray)))
    input target s :
  __init__ hook connection options self0 = (Return tt, self) ->
  (forall s' l p,
     variables s' = variables self -> In l (train_layers self) ->
     In p (parameters l) ->
     call_method hook s' [LayerArgument l; ParameterArgument p] = Return (rule l p)) ->
  (forall l p u, In u (rule l p) -> u.1 = p) ->
  (forall l, In l (train_layers self) -> ~ In s (parameters l)) ->
  (forall stream, s <> RandomState stream) ->
  storage (train_epoch input target self).2 s = storage self s.
Proof.
  intros Hinit Hhook Htarget Hs Hrandom.
  destruct (init_inv _ _ _ _ _ Hinit)
    as (ch & first & final & b & ty & ups & Hi).
  cbv zeta in Hi.
  destruct Hi as (_ & _ & _ & _ & _ & _ & Hups & _ & _ & _ & Htrain & _ & _ & Hmethods & _).
  unfold init_train_updates in Hups. cbn [train_layers set_methods] in Hups.
  rewrite (extend_layer_updates_rule hook _ _ [] rule) in Hups
    by (intros; by apply Hhook).
  injection Hups as <-.
  match type of Hmethods with
  | _ = <[_ := _]> (<[_ := ?f]> _) =>
      assert (Hf : methods self !! "train_epoch" = Some f)
        by (rewrite Hmethods; lookup_key)
  end.
  apply (train_epoch_storage self _ input target s Hf); [|done].
  cbn [updates theano_function app]. rewrite Htrain.
  apply flat_map_targets. intros l Hl. apply flat_map_targets. intros p Hp.
  intros Hin. apply list_elem_of_fmap in Hin as (u & Heq & Hu).
  apply list_elem_of_In in Hu. pose proof (Htarget l p u Hu) as Hup.
  apply (Hs l). { by rewrite Htrain. } by rewrite Heq, Hup.
Qed.

Lemma extend_param_updates_app hook self layer ps1 ps2 acc :
  extend_param_updates hook self layer (ps1 ++ ps2) acc
  = extend_param_updates hook self layer ps1 acc
    ≫= extend_param_updates hook self layer ps2.
Proof.
  revert acc. induction ps1 as [|p ps1 IH]; intros acc; [done|].
  cbn [app extend_param_updates].
  destruct (call_method hook self _) as [new|]; [|done]. apply IH.
Qed.

Lemma extend_layer_updates_app hook self ls1 ls2 acc :
  extend_layer_updates hook self (ls1 ++ ls2) acc
  = extend_layer_updates hook self ls1 acc ≫= extend_layer_updates hook self ls2.
Proof.
  revert acc. induction ls1 as [|l ls1 IH]; intros acc; [done|].
  cbn [app extend_layer_updates].
  destruct (init_layer_updates hook self l) as [new|]; [|done]. apply IH.
Qed.

(** X13: the hook is called layer after layer and parameter after
    parameter, and the first call that raises ends the generation: when
    the hook returns for all the parameters before a given one, in the
    layers before and in the same layer, and raises for that one,
    [init_train_updates] raises that exception, whatever the hook would do
    for the parameters after it. *)
Theorem first_failing_parameter hook self pre layer post before parameter after e
    (rule : Layer -> SharedVariable -> list (UpdateRule (ndarray := ndarray))) :
  train_layers self = pre ++ layer :: post ->
  parameters layer = before ++ parameter :: after ->
  (forall l p, In l pre -> In p (parameters l) ->
     call_method hook self [LayerArgument l; ParameterArgument p] = Return (rule l p)) ->
  (forall p, In p before ->
     call_method hook self [LayerArgument layer; ParameterArgument p]
     = Return (rule layer p)) ->
  call_method hook self [LayerArgument layer; ParameterArgument parameter] = Raise e ->
  init_train_updates hook self = Raise e.
Proof.
  intros Hlayers Hparameters Hpre Hbefore Hraise.
  unfold init_train_updates. rewrite Hlayers, extend_layer_updates_app.
  rewrite (extend_layer_updates_rule hook self pre [] rule) by done.
  cbn [mbind Outcome_bind extend_layer_updates]. unfold init_layer_updates.
  rewrite Hparameters, extend_param_updates_app.
  rewrite (extend_param_updates_rule hook self layer before [] (rule layer)) by done.
  cbn [mbind Outcome_bind extend_param_updates]. by rewrite Hraise.
Qed.

(** X14: a network constructed from a list of two or more layer objects
    has these layers, in the order of the list, as its layers: the last
    one, an [Output] instance, is the output layer and the others are the
    trainable layers. *)
Theorem layers_of_constructed_list hook (ls : list Layer) final options self0 self :
  ls <> [] ->
  __init__ hook (PyList (layer_object <$> ls ++ [final])) options self0
  = (Return tt, self) ->
  layer_class final = OutputLayer
  /\ layers self = ls ++ [final]
  /\ train_layers self = ls
  /\ input_layer self = head ls
  /\ output_layer self = Some final.
Proof.
  intros Hls Hinit.
  destruct (init_inv _ _ _ _ _ Hinit)
    as (ch & first & last_layer & b & ty & ups & Hi).
  cbv zeta in Hi.
  destruct Hi as (Hclean & Hfirst & Hlast & _ & _ & _ & _ & Hlayers & Hin & Hout & Htrain & _).
  apply (clean_layers_linked_inv ls final _ Hls) in Hclean as [[= ->] Hclass].
  rewrite chain_layers_chain_of in *.
  rewrite Hlayers, Htrain, Hin, Hout, <- Hfirst, <- Hlast.
  split; [done|]. split; [done|].
  split; [by rewrite List.removelast_last|].
  split; [by destruct ls|]. by rewrite last_snoc.
Qed.

End Properties.

(** * The properties on the small network *)

Lemma built_constructed :
  __init__ (collaborators := Example.no_attribute) Example.to_loss
    Example.pipeline 1 (new_object Example.zeros)
  = (Return tt, Example.built).
Proof. vm_compute. reflexivity. Qed.

(** C1, at a network: with the default hook the constructor fails on the
    pipeline, whose first layer has two parameters, once [predict_raw] is
    compiled and before [train_epoch] is. *)
Example default_hook_construction_fails :
  let result :=
    __init__ (collaborators := Example.no_attribute) init_param_updates
      Example.pipeline 1 (new_object Example.zeros) in
  result.1 = Raise TypeError
  /\ init_layer_updates init_param_updates result.2 (Example.dense "h")
     = Raise TypeError
  /\ is_Some (methods result.2 !! "predict_raw")
  /\ methods result.2 !! "train_epoch" = None.
Proof. vm_compute. repeat split. by eexists. Qed.

(** C2, where the claim fails: the inference expression of a pipeline
    whose only trainable layer is a Dropout layer is the input itself, not
    the output of that layer; and behind a layer that ignores its input
    the two expressions coincide although the Dropout layer changes its
    input. *)
Lemma inference_pass_skips_Dropout :
  let after ls := (init_variables (collaborators := Example.no_attribute)
                     (Example.prepared ls)).2 in
  variables (after [Example.dropout]) !! "prediction_func" = Some Example.x
  /\ Example.x <> uniform_pass [Example.dropout] Example.x
  /\ output Example.dropout Example.x <> Example.x
  /\ variables (after [Example.dropout; Example.constant]) !! "prediction_func"
     = variables (after [Example.dropout; Example.constant]) !! "train_prediction_func".
Proof. vm_compute. repeat split; discriminate. Qed.

Lemma passes_differ_at_Dropout_witness :
  exists self',
    init_variables (collaborators := Example.no_attribute)
      (Example.prepared [Example.dropout; Example.dense "h"]) = (Return tt, self')
    /\ variables self' !! "prediction_func"
       <> variables self' !! "train_prediction_func".
Proof.
  destruct (passes_differ_at_Dropout (collaborators := Example.no_attribute)
              (Example.prepared [Example.dropout; Example.dense "h"])
              Example.x Example.y Example.base_network
              eq_refl eq_refl eq_refl)
    as (self' & Hrun & _ & _ & _ & Hdiffer).
  exists self'. split; [exact Hrun|].
  apply (Hdiffer [] Example.dropout [Example.dense "h"]).
  - reflexivity.
  - reflexivity.
  - repeat constructor.
  - repeat constructor. intros a b Heq. injection Heq as Heq. exact Heq.
  - discriminate.
Defined.

Lemma input_rank_checked_witness :
  let result :=
    __init__ (collaborators := Example.no_attribute) Example.to_loss
      (PyList [layer_object Example.volume; layer_object Example.out]) 1
      (new_object Example.zeros) in
  result.1 = Raise ValueError /\ methods result.2 = ∅.
Proof.
  destruct (input_rank_checked (collaborators := Example.no_attribute)
              Example.to_loss
              (PyList [layer_object Example.volume; layer_object Example.out]) 1
              Example.zeros
              (ChainLink (ChainLayer Example.volume) (ChainLayer Example.out))
              Example.volume Example.base_network
              eq_refl eq_refl eq_refl eq_refl)
    as [Hbad _].
  destruct Hbad as (_ & Hraise & _ & Hmethods); [discriminate ..|].
  split; [exact Hraise|exact Hmethods].
Defined.

Lemma terminal_layer_validated_witness :
  clean_layers (collaborators := Example.no_attribute)
    (PyList [layer_object (Example.dense "h"); layer_object (Example.dense "g")])
  = Raise NetworkConnectionError
  /\ clean_layers (collaborators := Example.no_attribute) Example.pipeline
     = Return (PyChain (chain_of [Example.dense "h"; Example.dropout] Example.out)).
Proof.
  split.
  - apply (terminal_layer_validated (collaborators := Example.no_attribute)
             Example.to_loss
             (PyList [layer_object (Example.dense "h");
                      layer_object (Example.dense "g")])
             1 (new_object Example.zeros)
             (PyChain (chain_of [Example.dense "h"] (Example.dense "g")))
             (layer_object (Example.dense "g")) eq_refl eq_refl).
    reflexivity.
  - apply (terminal_layer_validated (collaborators := Example.no_attribute)
             Example.to_loss Example.pipeline 1 (new_object Example.zeros)
             (PyChain (chain_of [Example.dense "h"; Example.dropout] Example.out))
             (layer_object Example.out) eq_refl eq_refl).
    reflexivity.
Defined.

Lemma updates_follow_pipeline_witness :
  exists x y loss,
    methods Example.built !! "train_epoch"
    = Some (theano_function [x; y] loss
              [(ParameterShared "h.weight", loss); (ParameterShared "h.bias", loss)]).
Proof.
  destruct (updates_follow_pipeline (collaborators := Example.no_attribute)
              Example.to_loss Example.pipeline 1 (new_object Example.zeros)
              Example.built
              (fun _ p => [(p, Apply "sub"
                                 [Example.y;
                                  output Example.dropout
                                    (output (Example.dense "h") Example.x)])])
              built_constructed)
    as (x & y & loss & _ & Htrain & _).
  - intros s l p Hvariables _ _. unfold call_method. cbn.
    rewrite Hvariables. vm_compute. reflexivity.
  - exists x, y, loss. rewrite Htrain. vm_compute.
    vm_compute in Htrain. injection Htrain as _ _ <-. reflexivity.
Defined.

Lemma dense_draws_nothing name : draws_nothing (Example.dense name).
Proof.
  intros e He. cbn [output Example.dense random_streams]. by rewrite He.
Qed.

Lemma built_stochastic_layers :
  Forall (fun l => is_Dropout l = false -> draws_nothing l)
    (train_layers Example.built).
Proof.
  change (train_layers Example.built) with [Example.dense "h"; Example.dropout].
  repeat constructor.
  - intros _. apply dense_draws_nothing.
  - discriminate.
Qed.

Lemma evaluation_has_no_effect_witness :
  (predict_raw (collaborators := Example.no_attribute)
     (ArrayValue 3) Example.built).2 = Example.built
  /\ storage (prediction_error (collaborators := Example.no_attribute)
                (ArrayValue 3) (ArrayValue 10) Example.built).2
       (ParameterShared "h.weight")
     = storage Example.built (ParameterShared "h.weight").
Proof.
  destruct (evaluation_has_no_effect (collaborators := Example.no_attribute)
              Example.to_loss Example.pipeline 1 (new_object Example.zeros)
              Example.built built_constructed built_stochastic_layers)
    as [Hraw Herror].
  destruct (Hraw (ArrayValue 3)) as (r & -> & _).
  destruct (Herror (ArrayValue 3) (ArrayValue 10)) as [Hkept _].
  split; [reflexivity|]. apply Hkept. discriminate.
Defined.

(** C6, on a network whose shared variables start at 1: a call of
    [prediction_error] moves the random stream of the Dropout layer, so
    that a second call returns another loss, while no parameter changes
    and [predict_raw] returns what it returned before. *)
Example prediction_error_moves_the_random_stream :
  let first := prediction_error (collaborators := Example.no_attribute)
                 (ArrayValue 3) (ArrayValue 10) Example.live in
  let second := prediction_error (collaborators := Example.no_attribute)
                  (ArrayValue 3) (ArrayValue 10) first.2 in
  first.1 = Return (ArrayValue 6)
  /\ second.1 = Return (ArrayValue 11)
  /\ storage Example.live (RandomState "dropout") = ArrayValue 1
  /\ storage first.2 (RandomState "dropout") = ArrayValue 2
  /\ storage second.2 (ParameterShared "h.weight") = ArrayValue 1
  /\ (predict_raw (collaborators := Example.no_attribute) (ArrayValue 3) second.2).1
     = (predict_raw (collaborators := Example.no_attribute)
          (ArrayValue 3) Example.live).1.
Proof. vm_compute. repeat split. Qed.

Lemma predict_postprocesses_witness :
  predict (collaborators := Example.no_attribute) (ArrayValue 3) Example.built
  = (Return (Const (ArrayValue 0)), Example.built).
Proof.
  destruct (predict_postprocesses (collaborators := Example.no_attribute)
              Example.to_loss Example.pipeline 1 (new_object Example.zeros)
              Example.built (ArrayValue 3) built_constructed)
    as (final & x & Hlast & _ & ->).
  vm_compute in Hlast. injection Hlast as <-.
  vm_compute. reflexivity.
Defined.

(** C8, where the claim fails: after the step of the network has been set
    to 5, the start of an epoch writes the epoch and leaves the step
    variable at 1. *)
Lemma epoch_start_leaves_step_variable :
  let result := on_epoch_start_update (collaborators := Example.no_attribute)
                  3 Example.restepped in
  result.1 = Return tt
  /\ storage result.2 (NetworkShared "epoch") = IntValue 3
  /\ step <$> base result.2 = Some (ArrayValue 5)
  /\ storage result.2 (NetworkShared "step") = ArrayValue 1
  /\ storage result.2 (NetworkShared "step")
     <> asfloat (Collaborators := Example.no_attribute) (ArrayValue 5).
Proof. vm_compute. repeat split; discriminate. Qed.

Lemma epoch_start_writes_epoch_witness :
  exists self',
    on_epoch_start_update (collaborators := Example.no_attribute) 7 Example.built
    = (Return tt, self')
    /\ storage self' (NetworkShared "epoch") = IntValue 7
    /\ storage self' (NetworkShared "step")
       = storage Example.built (NetworkShared "step")
    /\ storage self' (ParameterShared "h.weight")
       = storage Example.built (ParameterShared "h.weight").
Proof.
  assert (Hbase : BaseNetwork_on_epoch_start_update
                     (Collaborators := Example.no_attribute) 7 Example.built
                   = (Return tt, (Example.keep_last_epoch 7 Example.built).2))
    by (vm_compute; reflexivity).
  assert (Hstorage : storage (Example.keep_last_epoch 7 Example.built).2
                     = storage Example.built)
    by (vm_compute; reflexivity).
  assert (Hvariable : variables (Example.keep_last_epoch 7 Example.built).2 !! "epoch"
                      = Some (Shared (NetworkShared "epoch")))
    by (vm_compute; reflexivity).
  destruct (epoch_start_writes_epoch (collaborators := Example.no_attribute)
              7 Example.built (Example.keep_last_epoch 7 Example.built).2
              (NetworkShared "epoch") Hbase Hstorage Hvariable)
    as (self' & Hrun & Hepoch & _ & Hkept & _).
  destruct (Hkept eq_refl) as [Hstep Hparameters].
  exists self'. split; [exact Hrun|]. split; [exact Hepoch|].
  split; [exact Hstep|apply Hparameters].
Defined.

Lemma single_layer_sequence_crashes_witness :
  clean_layers (collaborators := Example.no_attribute)
    (PyList [layer_object Example.out]) = Raise AttributeError
  /\ __init__ (collaborators := Example.no_attribute) Example.to_loss
       (PyList [layer_object (Example.dense "h")]) 1 (new_object Example.zeros)
     = (Raise AttributeError, new_object Example.zeros).
Proof.
  split.
  - apply (single_layer_sequence_crashes (collaborators := Example.no_attribute)
             Example.to_loss Example.out 1 (new_object Example.zeros)).
    reflexivity.
  - apply (single_layer_sequence_crashes (collaborators := Example.no_attribute)
             Example.to_loss (Example.dense "h") 1 (new_object Example.zeros)).
    reflexivity.
Defined.

Lemma train_epoch_does_not_format_witness :
  exists f_train f_error,
    (forall input target,
       train_epoch (collaborators := Example.no_attribute) input target Example.built
       = run_function (collaborators := Example.no_attribute)
           f_train [input; target] Example.built)
    /\ (forall input target,
       prediction_error (collaborators := Example.no_attribute)
         input target Example.built
       = run_function (collaborators := Example.no_attribute) f_error
           [ArrayValue (Example.as_int input + 1);
            ArrayValue (Example.as_int target + 1)] Example.built).
Proof.
  assert (Htrain : is_Some (methods Example.built !! "train_epoch"))
    by (vm_compute; eauto).
  assert (Herror : is_Some (methods Example.built !! "prediction_error"))
    by (vm_compute; eauto).
  assert (Hraw : is_Some (methods Example.built !! "predict_raw"))
    by (vm_compute; eauto).
  destruct Htrain as [f_train Htrain], Herror as [f_error Herror],
    Hraw as [f_raw Hraw].
  destruct (train_epoch_does_not_format (collaborators := Example.no_attribute)
              Example.built (Example.dense "h") Example.out
              f_train f_error f_raw Htrain Herror Hraw eq_refl eq_refl)
    as (Ht & He & _).
  exists f_train, f_error. split; [exact Ht|exact He].
Defined.

(** ** Further properties on the small network *)

Lemma idle_constructed :
  __init__ (collaborators := Example.no_attribute) init_param_updates
    Example.idle_pipeline 1 (new_object Example.zeros)
  = (Return tt, Example.idle).
Proof. vm_compute. reflexivity. Qed.


Lemma clean_layers_idempotent_witness :
  clean_layers (collaborators := Example.no_attribute)
    (PyChain (chain_of [Example.dense "h"; Example.dropout] Example.out))
  = Return (PyChain (chain_of [Example.dense "h"; Example.dropout] Example.out)).
Proof.
  apply (clean_layers_idempotent (collaborators := Example.no_attribute)
           Example.pipeline).
  vm_compute. reflexivity.
Defined.

Lemma failed_updates_stop_compilation_witness :
  let result :=
    __init__ (collaborators := Example.no_attribute) init_param_updates
      Example.pipeline 1 (new_object Example.zeros) in
  result.1 = Raise TypeError
  /\ methods result.2 !! "train_epoch" = None
  /\ methods result.2 !! "prediction_error" = None.
Proof.
  destruct (failed_updates_stop_compilation (collaborators := Example.no_attribute)
              init_param_updates Example.pipeline 1 (new_object Example.zeros)
              (chain_of [Example.dense "h"; Example.dropout] Example.out)
              (Example.dense "h") Example.base_network matrix TypeError)
    as (Hraise & _ & Htrain & Herror).
  - vm_compute. reflexivity.
  - reflexivity.
  - reflexivity.
  - reflexivity.
  - reflexivity.
  - intros s Hs. unfold init_train_updates. rewrite Hs.
    rewrite extend_layer_updates_default. reflexivity.
  - split; [exact Hraise|]. split; [exact Htrain|exact Herror].
Defined.

Lemma compiled_functions_witness :
  dom (methods Example.built)
  = {["predict_raw"; "train_epoch"; "prediction_error"]}.
Proof.
  destruct (compiled_functions (collaborators := Example.no_attribute)
              Example.to_loss Example.pipeline 1 (new_object Example.zeros)
              Example.built built_constructed)
    as (ty & b & ups & _ & Hdom & _).
  exact Hdom.
Defined.

Lemma layer_views_witness :
  train_layers Example.built ++ [Example.out] = layers Example.built.
Proof.
  destruct (layer_views (collaborators := Example.no_attribute)
              Example.to_loss Example.pipeline 1 (new_object Example.zeros)
              Example.built built_constructed)
    as (first & final & _ & Hout & Hsplit & _).
  assert (Hfinal : output_layer Example.built = Some Example.out)
    by (vm_compute; reflexivity).
  rewrite Hfinal in Hout. injection Hout as <-. exact Hsplit.
Defined.

Lemma construction_sets_step_and_epoch_witness :
  storage Example.built (NetworkShared "epoch") = IntValue 0
  /\ storage Example.built (ParameterShared "h.weight") = ArrayValue 0.
Proof.
  destruct (construction_sets_step_and_epoch (collaborators := Example.no_attribute)
              Example.to_loss Example.pipeline 1 (new_object Example.zeros)
              Example.built built_constructed)
    as (b & Hbase & _ & _ & _ & Hepoch & Hparameters).
  assert (Hb : base Example.built = Some Example.base_network)
    by (vm_compute; reflexivity).
  rewrite Hb in Hbase. injection Hbase as <-.
  split; [exact Hepoch|]. rewrite Hparameters. reflexivity.
Defined.

Lemma failed_initialisation_witness :
  let result :=
    __init__ (collaborators := Example.strict) Example.to_loss
      (PyList [layer_object Example.volume; layer_object (Example.dense "g");
               layer_object Example.out]) 1 (new_object Example.zeros) in
  result.1 = Raise (ExternalError "initialize") /\ variables result.2 = ∅.
Proof.
  destruct (failed_initialisation (collaborators := Example.strict)
              Example.to_loss
              (PyList [layer_object Example.volume; layer_object (Example.dense "g");
                       layer_object Example.out]) 1 Example.zeros
              (chain_of [Example.volume; Example.dense "g"] Example.out)
              (ExternalError "initialize"))
    as [Hinitialize _].
  - vm_compute. reflexivity.
  - destruct Hinitialize as (Hraise & _ & Hvariables & _).
    + vm_compute. reflexivity.
    + split; [exact Hraise|exact Hvariables].
Defined.

Lemma default_hook_trains_nothing_witness :
  storage (train_epoch (collaborators := Example.no_attribute)
             (ArrayValue 3) (ArrayValue 10) Example.idle).2
    (ParameterShared "frozen.weight")
  = storage Example.idle (ParameterShared "frozen.weight").
Proof.
  destruct (default_hook_trains_nothing (collaborators := Example.no_attribute)
              Example.idle_pipeline 1 (new_object Example.zeros) Example.idle
              idle_constructed)
    as (_ & _ & Hidle).
  apply Hidle. discriminate.
Defined.

Lemma train_epoch_changes_trainable_parameters_only_witness :
  storage (train_epoch (collaborators := Example.no_attribute)
             (ArrayValue 3) (ArrayValue 10) Example.built).2 (NetworkShared "epoch")
  = storage Example.built (NetworkShared "epoch").
Proof.
  apply (train_epoch_changes_trainable_parameters_only
           (collaborators := Example.no_attribute)
           Example.to_loss Example.pipeline 1 (new_object Example.zeros)
           Example.built
           (fun _ p => [(p, Apply "sub"
                              [Example.y;
                               output Example.dropout
                                 (output (Example.dense "h") Example.x)])])
           (ArrayValue 3) (ArrayValue 10) (NetworkShared "epoch")
           built_constructed).
  - intros s l p Hvariables _ _. unfold call_method. cbn.
    rewrite Hvariables. vm_compute. reflexivity.
  - intros l p u [<-|[]]. reflexivity.
  - intros l Hl. vm_compute in Hl.
    destruct Hl as [<-|[<-|[]]]; vm_compute; intros H;
      repeat (destruct H as [H|H]; [discriminate|]); exact H.
  - discriminate.
Defined.

Lemma first_failing_parameter_witness :
  init_train_updates Example.picky
    (set_train_layers [Example.dense "h"; Example.dense "g"; Example.dropout]
       (new_object Example.zeros))
  = Raise ValueError.
Proof.
  apply (first_failing_parameter Example.picky _
           [Example.dense "h"] (Example.dense "g") [Example.dropout]
           [] (ParameterShared "g.weight") [ParameterShared "g.bias"] ValueError
           (fun _ p => [(p, Shared p)])).
  - reflexivity.
  - reflexivity.
  - intros l p [<-|[]] Hp. vm_compute in Hp.
    destruct Hp as [<-|[<-|[]]]; reflexivity.
  - intros p [].
  - reflexivity.
Defined.

Lemma layers_of_constructed_list_witness :
  layers Example.built = [Example.dense "h"; Example.dropout; Example.out]
  /\ train_layers Example.built = [Example.dense "h"; Example.dropout].
Proof.
  destruct (layers_of_constructed_list (collaborators := Example.no_attribute)
              Example.to_loss [Example.dense "h"; Example.dropout] Example.out
              1 (new_object Example.zeros) Example.built)
    as (_ & Hlayers & Htrain & _).
  - discriminate.
  - exact built_constructed.
  - split; [exact Hlayers|exact Htrain].
Defined.
